(** * qp_fastp_minimap2: command plan builder and job-file emission

    A shallow embedding of [qp_fastp_minimap2/qp_fastp_minimap2.py] and the
    properties of it that the specification states.

    Python values are dynamically typed, so the few values whose type the
    source does not fix ([params] entries, the arguments of a call) are
    [pyval]s.  Strings are sequences of code points below 256.  A Python
    exception is a [Raise]; the outcome [Unmodelled] marks an input on which
    the embedding of a Python built-in does not say what Python does (the
    [repr] of a text with a quote, a backslash or a character that is not
    printable ASCII, a printf directive other than [%s] and [%%], ...). *)

From Stdlib Require Import ZArith String Ascii DecimalString Lia.
From stdpp Require Import base option list gmap strings sorting.

Open Scope string_scope.
Open Scope list_scope.

#[local] Arguments String.append !_ _ / : simpl nomatch.

(** ** Outcomes of Python computations *)

Inductive exn : Type :=
| TypeError (msg : string)
| ValueError (msg : string)
| KeyError (key : string)
| IndexError
| FileNotFoundError (path : string).

Inductive outcome (A : Type) : Type :=
| Ret (a : A)
| Raise (e : exn)
| Unmodelled.

Arguments Ret {A} a.
Arguments Raise {A} e.
Arguments Unmodelled {A}.

#[global] Instance outcome_ret : MRet outcome := @Ret.

#[global] Instance outcome_bind : MBind outcome := λ A B f m,
  match m with
  | Ret a => f a
  | Raise e => Raise e
  | Unmodelled => Unmodelled
  end.

#[global] Instance outcome_fmap : FMap outcome := λ A B f m,
  match m with
  | Ret a => Ret (f a)
  | Raise e => Raise e
  | Unmodelled => Unmodelled
  end.

(** ** Python values *)

Inductive pyval : Type :=
| PyNone
| PyInt (z : Z)
| PyStr (s : string)
| PyList (l : list string).

(** ** String primitives *)

Definition chr_is (c d : ascii) : bool := Ascii.eqb c d.

Fixpoint has_char (c : ascii) (s : string) : bool :=
  match s with
  | "" => false
  | String d r => chr_is d c || has_char c r
  end.

(** [needle in hay] on two [str]. *)
Fixpoint str_in (needle hay : string) : bool :=
  String.prefix needle hay ||
  match hay with
  | "" => false
  | String _ r => str_in needle r
  end.

Fixpoint endswith (s suffix : string) : bool :=
  String.eqb s suffix ||
  match s with
  | "" => false
  | String _ r => endswith r suffix
  end.

Definition startswith (s : string) (c : ascii) : bool :=
  match s with
  | String d _ => chr_is d c
  | "" => false
  end.

(** ['sep'.join(l)] *)
Fixpoint str_join (sep : string) (l : list string) : string :=
  match l with
  | [] => ""
  | [x] => x
  | x :: r => x +:+ sep +:+ str_join sep r
  end.

(** *** [repr()] and [str()] *)

(** The characters that [repr] of a [str] shows as they are: printable
    ASCII other than the single quote and the backslash. *)
Definition repr_plain (c : ascii) : bool :=
  let n := nat_of_ascii c in
  ((32 <=? n) && (n <=? 126) && negb (n =? 39) && negb (n =? 92))%nat.

Fixpoint all_repr_plain (s : string) : bool :=
  match s with
  | "" => true
  | String c r => repr_plain c && all_repr_plain r
  end.

(** [repr(s)] of a [str] made of such characters: the text between single
    quotes. *)
Definition py_repr (s : string) : outcome string :=
  if all_repr_plain s then Ret ("'" +:+ s +:+ "'") else Unmodelled.

Fixpoint py_reprs (l : list string) : outcome (list string) :=
  match l with
  | [] => Ret []
  | s :: r => x ← py_repr s; xs ← py_reprs r; Ret (x :: xs)
  end.

(** [str(v)], which is also [format(v, '')] for these types; the text of a
    list is the [repr] of its items, between brackets. *)
Definition py_str (v : pyval) : outcome string :=
  match v with
  | PyNone => Ret "None"
  | PyInt z => Ret (NilZero.string_of_int (Z.to_int z))
  | PyStr s => Ret s
  | PyList l => items ← py_reprs l; Ret ("[" +:+ str_join ", " items +:+ "]")
  end.

(** *** [posixpath.basename] and [posixpath.join] *)

(** [cur] is the part of the path after the last ['/'] seen so far. *)
Fixpoint basename_from (cur p : string) : string :=
  match p with
  | "" => cur
  | String c r => if chr_is c "/" then basename_from r r else basename_from cur r
  end.

(** [basename(p)] is [p[p.rfind('/') + 1:]]. *)
Definition basename (p : string) : string := basename_from p p.

(** [join(a, b)] with two components. *)
Definition join (a b : string) : string :=
  if startswith b "/" then b
  else if String.eqb a "" || endswith a "/" then a +:+ b
  else a +:+ "/" +:+ b.

(** *** [str.format] with keyword arguments only *)

Definition is_digit (c : ascii) : bool :=
  (48 <=? nat_of_ascii c)%nat && (nat_of_ascii c <=? 57)%nat.

Fixpoint all_digits (s : string) : bool :=
  match s with
  | "" => true
  | String c r => is_digit c && all_digits r
  end.

Fixpoint kw_lookup (kw : list (string * pyval)) (name : string) : option pyval :=
  match kw with
  | [] => None
  | (k, v) :: r => if String.eqb k name then Some v else kw_lookup r name
  end.

(** The value of the replacement field [{name}].  An empty or numeric name
    refers to a positional argument, and there are none. *)
Definition format_field (kw : list (string * pyval)) (name : string) : outcome string :=
  if all_digits name then Raise IndexError
  else match kw_lookup kw name with
       | Some v => py_str v
       | None => Raise (KeyError name)
       end.

(** Characters that start an attribute, an index, a conversion, a format
    specification or a nested field inside a replacement field. *)
Definition field_special (c : ascii) : bool :=
  chr_is c "." || chr_is c "[" || chr_is c "!" || chr_is c ":" || chr_is c "{".

(** [fld] is [Some name] while the scan is inside a replacement field. *)
Fixpoint format_scan (kw : list (string * pyval)) (fld : option string) (s : string)
  : outcome string :=
  match s with
  | "" =>
      match fld with
      | None => Ret ""
      | Some _ => Raise (ValueError "expected '}' before end of string")
      end
  | String c r =>
      match fld with
      | Some name =>
          if chr_is c "}" then
            v ← format_field kw name;
            rest ← format_scan kw None r;
            Ret (v +:+ rest)
          else if field_special c then Unmodelled
          else format_scan kw (Some (name +:+ String c "")) r
      | None =>
          if chr_is c "{" then
            match r with
            | "" => Raise (ValueError "Single '{' encountered in format string")
            | String d r' =>
                if chr_is d "{" then String "{" <$> format_scan kw None r'
                else format_scan kw (Some "") r
            end
          else if chr_is c "}" then
            match r with
            | "" => Raise (ValueError "Single '}' encountered in format string")
            | String d r' =>
                if chr_is d "}" then String "}" <$> format_scan kw None r'
                else Raise (ValueError "Single '}' encountered in format string")
            end
          else String c <$> format_scan kw None r
      end
  end.

(** [template.format] applied to the keyword arguments [kw] *)
Definition py_format (template : string) (kw : list (string * pyval)) : outcome string :=
  format_scan kw None template.

(** *** The [%] operator on a [str] and a tuple of [str] *)

Fixpoint py_mod (fmt : string) (args : list string) : outcome string :=
  match fmt with
  | "" =>
      match args with
      | [] => Ret ""
      | _ :: _ =>
          Raise (TypeError "not all arguments converted during string formatting")
      end
  | String c r =>
      if chr_is c "%" then
        match r with
        | "" => Raise (ValueError "incomplete format")
        | String d r' =>
            if chr_is d "%" then String "%" <$> py_mod r' args
            else if chr_is d "s" then
              match args with
              | [] => Raise (TypeError "not enough arguments for format string")
              | a :: args' => String.append a <$> py_mod r' args'
              end
            else if chr_is d "(" then Raise (TypeError "format requires a mapping")
            else Unmodelled
        end
      else String c <$> py_mod r args
  end.

(** ** The module's constants (source lines 17-37) *)

Definition MEMORY : string := "16g".
Definition WALLTIME : string := "30:00:00".
Definition FINISH_MEMORY : string := "10g".
Definition FINISH_WALLTIME : string := "10:00:00".
Definition MAX_RUNNING : Z := 8.

Definition FASTP_BASE : string := "fastp -l 100 -i %s -w {nprocs} ".
Definition MINIMAP2_BASE : string := "minimap2 -ax sr -t {nprocs} {database} - -a ".
Definition IVAR_TRIM_BASE : string := "ivar trim -x {nprocs} -e -b {primer} -i %s".

Definition IVAR_TRIM_CMD : string := str_join " " [IVAR_TRIM_BASE; "-p {out_dir}/%s"].
Definition FASTP_CMD : string :=
  str_join " " [FASTP_BASE; "-I %s -o {out_dir}/%s -O {out_dir}/%s"].
Definition FASTP_CMD_SINGLE : string := FASTP_BASE +:+ " -o " +:+ "{out_dir}/%s".
Definition COMBINED_CMD : string :=
  FASTP_BASE +:+ " -I %s --stdout | " +:+ MINIMAP2_BASE +:+ " | "
  +:+ "{out_dir}/%s -2 {out_dir}/%s".
Definition COMBINED_CMD_SINGLE : string :=
  FASTP_BASE +:+ " --stdout | " +:+ MINIMAP2_BASE +:+ " | " +:+ "{out_dir}/%s".

(** ** [_generate_commands] (source lines 47-61) *)

Definition py_type_name (v : pyval) : string :=
  match v with
  | PyNone => "NoneType"
  | PyInt _ => "int"
  | PyStr _ => "str"
  | PyList _ => "list"
  end.

Fixpoint chars (s : string) : list string :=
  match s with
  | "" => []
  | String c r => String c "" :: chars r
  end.

(** The items that [for x in v] visits. *)
Definition py_iter (v : pyval) : outcome (list string) :=
  match v with
  | PyList l => Ret l
  | PyStr s => Ret (chars s)
  | _ => Raise (TypeError ("'" +:+ py_type_name v +:+ "' object is not iterable"))
  end.

(** The body of [for bam in bam_file], with the two lists it appends to. *)
Fixpoint for_bam (command out_dir : string) (bam_file : list string)
    (commands : list string) (out_files : list (string * string))
  : outcome (list string * list (string * string)) :=
  match bam_file with
  | [] => Ret (commands, out_files)
  | bam :: rest =>
      let fname := basename bam in
      let out_files := out_files ++ [(out_dir +:+ "/" +:+ fname, "trimmed")] in
      cmd ← py_mod command [bam; fname];
      for_bam command out_dir rest (commands ++ [cmd]) out_files
  end.

Definition _generate_commands (bam_file primer nprocs out_dir : pyval)
  : outcome (list string * list (string * string)) :=
  let cmd := IVAR_TRIM_CMD in
  command ← py_format cmd [("nprocs", nprocs); ("primer", primer); ("out_dir", out_dir)];
  bams ← py_iter bam_file;
  out_dir_s ← py_str out_dir;
  for_bam command out_dir_s bams [] [].

(** A call of [_generate_commands] with positional arguments only: the
    interpreter binds them to the four parameters before the body runs. *)
Definition call__generate_commands (args : list pyval)
  : outcome (list string * list (string * string)) :=
  match args with
  | [bam_file; primer; nprocs; out_dir] =>
      _generate_commands bam_file primer nprocs out_dir
  | [] =>
      Raise (TypeError ("_generate_commands() missing 4 required positional arguments: "
                        +:+ "'bam_file', 'primer', 'nprocs', and 'out_dir'"))
  | [_] =>
      Raise (TypeError ("_generate_commands() missing 3 required positional arguments: "
                        +:+ "'primer', 'nprocs', and 'out_dir'"))
  | [_; _] =>
      Raise (TypeError ("_generate_commands() missing 2 required positional arguments: "
                        +:+ "'nprocs' and 'out_dir'"))
  | [_; _; _] =>
      Raise (TypeError ("_generate_commands() missing 1 required positional argument: "
                        +:+ "'out_dir'"))
  | _ =>
      Raise (TypeError ("_generate_commands() takes 4 positional arguments but "
                        +:+ NilZero.string_of_uint (Nat.to_uint (length args))
                        +:+ " were given"))
  end.


(** ** The environment of the plugin *)

(** What the process finds outside itself: the variable read at import
    (line 23), the directory listings that [glob] sees, what [pandas] makes
    of the preparation file, and what the operating system does when a file
    is opened for writing. *)
Record world : Type := {
  QC_REFERENCE_DB : string;
  (** names in a directory, in the order the system lists them; none when
      the directory cannot be listed *)
  scandir : string → list string;
  (** the column labels of [pd.read_csv(path, sep='\t', ...)], or what it raises *)
  read_csv_columns : string → outcome (list string);
  (** [with open(path, 'w') as f: f.write(text)] on the files as they are:
      the exception that it raises, if any (a directory that is missing or
      closed to the process, ...), and the files afterwards, under every
      spelling of their paths *)
  os_write : string → string → gmap string string → option exn * gmap string string;
}.

(** Directory entries are non-empty names without a separator. *)
Definition entry_ok (n : string) : bool := negb (String.eqb n "") && negb (has_char "/" n).

Definition world_ok (w : world) : Prop :=
  ∀ d n, n ∈ scandir w d → entry_ok n = true.

(** *** [glob] on a pattern [folder/*.bed] *)

Definition has_magic (s : string) : bool :=
  has_char "*" s || has_char "?" s || has_char "[" s.

(** [s.rstrip('/')] *)
Fixpoint rstrip_slash (s : string) : string :=
  match s with
  | "" => ""
  | String c r =>
      let r' := rstrip_slash r in
      if String.eqb r' "" && chr_is c "/" then "" else String c r'
  end.

(** [p] up to and including its last ['/']. *)
Fixpoint upto_last_slash (p : string) : string :=
  match p with
  | "" => ""
  | String c r => if has_char "/" p then String c (upto_last_slash r) else ""
  end.

(** [posixpath.split(p)[0]]: trailing separators are dropped from the head
    unless it consists of separators only. *)
Definition split_head (p : string) : string :=
  let head := upto_last_slash p in
  if String.eqb (rstrip_slash head) "" then head else rstrip_slash head.

(** [fnmatch] of a directory entry against [*.bed]; [glob] never lets [*]
    match a hidden entry. *)
Definition matches_bed (n : string) : bool := negb (startswith n ".") && endswith n ".bed".

Definition glob_bed (w : world) (folder : string) : outcome (list string) :=
  let dirname := split_head (folder +:+ "/*.bed") in
  if has_magic dirname then Unmodelled
  else Ret (map (join dirname) (List.filter matches_bed (scandir w dirname))).

(** ** [get_dbs_list] (source lines 40-44) *)

Definition get_dbs_list (w : world) : outcome (list string) :=
  let folder := QC_REFERENCE_DB w in
  fs ← glob_bed w folder;
  Ret (map basename fs).

(** ** Files and the state of a run *)

Definition LF : string := String "010" "".
Definition CR : string := String "013" "".
Definition TAB : string := String "009" "".

(** A computation that reads and changes a state [S] and ends like a Python
    call does; the state it leaves is the state at the [raise]. *)
Definition run (S A : Type) : Type := S → outcome A * S.

#[global] Instance run_ret {S} : MRet (run S) := λ A a s, (Ret a, s).

#[global] Instance run_bind {S} : MBind (run S) := λ A B f m s,
  match m s with
  | (Ret a, s') => f a s'
  | (Raise e, s') => (Raise e, s')
  | (Unmodelled, s') => (Unmodelled, s')
  end.

(** A step without effect on the state. *)
Definition pure {S A} (o : outcome A) : run S A := λ s, (o, s).

(** Files are the text that the operating system finds under a path. *)
Abbreviation filesystem := (gmap string string).

(** [d[k]] on a [dict] with [str] keys *)
Definition dict_get {V} (d : gmap string V) (k : string) : outcome V :=
  match d !! k with
  | Some v => Ret v
  | None => Raise (KeyError k)
  end.

(** [sorted(l)] on a list of [str] *)
Definition sorted (l : list string) : list string := merge_sort String.le l.

(** ** The reference lookup of [fastp_minimap2_to_array] (source lines 127-131) *)

(** [v != s] for a [str] [s] *)
Definition py_ne_str (v : pyval) (s : string) : bool :=
  match v with
  | PyStr t => negb (String.eqb t s)
  | _ => true
  end.

(** [v in db] for a [str] [db] *)
Definition py_in_str (v : pyval) (db : string) : outcome bool :=
  match v with
  | PyStr r => Ret (str_in r db)
  | _ => Raise (TypeError ("'in <string>' requires string as left operand, not "
                           +:+ py_type_name v))
  end.

(** The list comprehension
    [[join(QC_REFERENCE_DB, f'{db}') for db in dbs if params['reference'] in db]]. *)
Fixpoint matching_dbs (w : world) (params : gmap string pyval) (dbs : list string)
  : outcome (list string) :=
  match dbs with
  | [] => Ret []
  | db :: rest =>
      reference ← dict_get params "reference";
      hit ← py_in_str reference db;
      tl ← matching_dbs w params rest;
      Ret (if hit : bool then join (QC_REFERENCE_DB w) db :: tl else tl)
  end.

Definition reference_database (w : world) (params : gmap string pyval) : outcome pyval :=
  let database := PyNone in
  reference ← dict_get params "reference";
  if py_ne_str reference "None" then
    dbs ← get_dbs_list w;
    hits ← matching_dbs w params dbs;
    match hits with
    | [] => Raise IndexError
    | database :: _ => Ret (PyStr database)
    end
  else Ret database.

(** ** [fastp_minimap2_to_array] (source lines 104-213) *)

Definition nat_str (n : nat) : string := NilZero.string_of_uint (Nat.to_uint n).

(** Lines 159-180. *)
Definition main_qsub_lines (job_id out_dir PPN environment details_name : string)
    (n_jobs : nat) : list string :=
  [ "#!/bin/bash";
    "#PBS -M qiita.help@gmail.com";
    "#PBS -N " +:+ job_id;
    "#PBS -l nodes=1:ppn=" +:+ PPN;
    "#PBS -l walltime=" +:+ WALLTIME;
    "#PBS -l mem=" +:+ MEMORY;
    "#PBS -o " +:+ out_dir +:+ "/" +:+ job_id +:+ "_${PBS_ARRAYID}.log";
    "#PBS -e " +:+ out_dir +:+ "/" +:+ job_id +:+ "_${PBS_ARRAYID}.err";
    "#PBS -t 1-" +:+ nat_str n_jobs +:+ "%" +:+ NilZero.string_of_int (Z.to_int MAX_RUNNING);
    "#PBS -l epilogue=/home/qiita/qiita-epilogue.sh";
    "set -e";
    "cd " +:+ out_dir;
    environment;
    "date";
    "hostname";
    "echo ${PBS_JOBID} ${PBS_ARRAYID}";
    "offset=${PBS_ARRAYID}";
    "step=$(( $offset - 0 ))";
    "cmd=$(head -n $step " +:+ details_name +:+ " | tail -n 1)";
    "eval $cmd";
    "set +e";
    "date" ].

(** Lines 187-203; the last two literals have no comma between them and
    make one element. *)
Definition finish_qsub_lines (job_id out_dir environment url : string) : list string :=
  [ "#!/bin/bash";
    "#PBS -M qiita.help@gmail.com";
    "#PBS -N finish-" +:+ job_id;
    "#PBS -l nodes=1:ppn=1";
    "#PBS -l walltime=" +:+ FINISH_WALLTIME;
    "#PBS -l mem=" +:+ FINISH_MEMORY;
    "#PBS -o " +:+ out_dir +:+ "/finish-" +:+ job_id +:+ ".log";
    "#PBS -e " +:+ out_dir +:+ "/finish-" +:+ job_id +:+ ".err";
    "#PBS -l epilogue=/home/qiita/qiita-epilogue.sh";
    "set -e";
    "cd " +:+ out_dir;
    environment;
    "date";
    "hostname";
    "echo $PBS_JOBID";
    "finish_qp_fastp_minimap2 " +:+ url +:+ " " +:+ job_id +:+ " " +:+ out_dir +:+ LF
      +:+ "date" ].

(** Line 211: one [path TAB role] text per manifest entry. *)
Definition manifest_lines (out_files : list (string * string)) : list string :=
  map (λ '(fp, ft), fp +:+ TAB +:+ ft) out_files.

(** [with open(path, 'w') as f: f.write(text)] *)
Definition write_file (w : world) (path text : string) : run filesystem unit :=
  λ fs, match os_write w path text fs with
        | (None, fs') => (Ret (), fs')
        | (Some e, fs') => (Raise e, fs')
        end.

(** [df.set_index('sample_name', inplace=True)] on the column labels. *)
Definition set_index_sample_name (columns : list string) : outcome (list string) :=
  if bool_decide ("sample_name" ∈ columns)
  then Ret (List.filter (λ c, negb (String.eqb c "sample_name")) columns)
  else Raise (KeyError "None of ['sample_name'] are in the columns").

Definition fastp_minimap2_to_array (w : world) (files : gmap string (list string))
    (out_dir : string) (params : gmap string pyval) (prep_info url job_id : string)
  : run filesystem (string * string * string) :=
  database ← pure (reference_database w params);
  raw_forward_seqs ← pure (dict_get files "raw_forward_seqs");
  let fwd_seqs := sorted raw_forward_seqs in
  let rev_seqs :=
    match files !! "raw_reverse_seqs" with
    | Some raw_reverse_seqs => sorted raw_reverse_seqs
    | None => []
    end in
  df ← pure (read_csv_columns w prep_info);
  df ← pure (set_index_sample_name df);
  if negb (bool_decide ("run_prefix" ∈ df)) then
    pure (Raise (ValueError "Missing run_prefix column in your preparation"))
  else
    threads ← pure (dict_get params "threads");
    '(commands, out_files) ← pure (call__generate_commands
        [PyList fwd_seqs; PyList rev_seqs; database; threads; PyStr out_dir]);
    let details_name := join out_dir "fastp_minimap2.array-details" in
    _ ← write_file w details_name (str_join LF commands);
    let n_jobs := length commands in
    PPN ← pure (dict_get params "threads");
    PPN_s ← pure (py_str PPN);
    environment ← pure (dict_get params "environment" ≫= py_str);
    let lines := main_qsub_lines job_id out_dir PPN_s environment details_name n_jobs in
    let main_qsub_fp := join out_dir (job_id +:+ ".qsub") in
    _ ← write_file w main_qsub_fp (str_join LF lines +:+ LF);
    environment ← pure (dict_get params "environment" ≫= py_str);
    let lines := finish_qsub_lines job_id out_dir environment url in
    let finish_qsub_fp := join out_dir (job_id +:+ ".finish.qsub") in
    _ ← write_file w finish_qsub_fp (str_join LF lines +:+ LF);
    let out_files_fp := join out_dir (job_id +:+ ".out_files.tsv") in
    _ ← write_file w out_files_fp (str_join LF (manifest_lines out_files));
    mret (main_qsub_fp, finish_qsub_fp, out_files_fp).

(** ** [fastp_minimap2] (source lines 64-101) *)

(** The part of [qiita_client.QiitaClient] that the plugin calls; [host] is
    the state of the server behind it. *)
Class QiitaClient (host : Type) : Type := {
  update_job_step : string → string → host → outcome unit * host;
}.

(** [qiita_client.ArtifactInfo(output_name, artifact_type, files)] *)
Record ArtifactInfo : Type := {
  output_name : string;
  artifact_type : string;
  artifact_files : list (string * string);
}.

(** [str.isspace] on a code point below 256. *)
Definition py_isspace (c : ascii) : bool :=
  let n := nat_of_ascii c in
  ((9 <=? n) && (n <=? 13) || (28 <=? n) && (n <=? 32) || (n =? 133) || (n =? 160))%nat.

Fixpoint has_space (s : string) : bool :=
  match s with
  | "" => false
  | String c r => py_isspace c || has_space r
  end.

Definition flush_word (cur : string) (l : list string) : list string :=
  if String.eqb cur "" then l else cur :: l.

(** [s.split()]: the maximal runs without whitespace; [cur] is the run
    being read. *)
Fixpoint split_from (cur s : string) : list string :=
  match s with
  | "" => flush_word cur []
  | String c r =>
      if py_isspace c then flush_word cur (split_from "" r)
      else split_from (cur +:+ String c "") r
  end.

Definition py_split (s : string) : list string := split_from "" s.

(** [f.readlines()] on a file opened for reading in text mode: a line ends
    after a line feed, a carriage return or the two in a row, and each of
    them is read as a line feed.  [cur] is the line being read. *)
Fixpoint readlines_from (cur s : string) : list string :=
  match s with
  | "" => flush_word cur []
  | String c r =>
      if chr_is c "010" then (cur +:+ LF) :: readlines_from "" r
      else if chr_is c "013" then
        match r with
        | "" => [cur +:+ LF]
        | String d r' =>
            if chr_is d "010" then (cur +:+ LF) :: readlines_from "" r'
            else (cur +:+ LF) :: readlines_from "" r
        end
      else readlines_from (cur +:+ String c "") r
  end.

Definition readlines (text : string) : list string := readlines_from "" text.

(** [with open(path) as f:] followed by [f.readlines()] *)
Definition read_lines {host} (path : string) : run (filesystem * host) (list string) :=
  λ s, match s.1 !! path with
       | Some text => (Ret (readlines text), s)
       | None => (Raise (FileNotFoundError path), s)
       end.

(** [fp, ft = line.split()] *)
Definition unpack2 (l : list string) : outcome (string * string) :=
  match l with
  | [fp; ft] => Ret (fp, ft)
  | [] => Raise (ValueError "not enough values to unpack (expected 2, got 0)")
  | [_] => Raise (ValueError "not enough values to unpack (expected 2, got 1)")
  | _ => Raise (ValueError "too many values to unpack (expected 2)")
  end.

(** The loop of lines 92-94. *)
Fixpoint for_line (lines : list string) (out_files : list (string * string))
  : outcome (list (string * string)) :=
  match lines with
  | [] => Ret out_files
  | line :: rest =>
      '(fp, ft) ← unpack2 (py_split line);
      for_line rest (out_files ++ [(fp, ft)])
  end.

Definition qclient_update_job_step `{QiitaClient host} (job_id msg : string)
  : run (filesystem * host) unit :=
  λ s, let '(o, h) := update_job_step job_id msg s.2 in (o, (s.1, h)).

Definition fastp_minimap2 `{QiitaClient host} (job_id : string)
    (parameters : gmap string pyval) (out_dir : string)
  : run (filesystem * host) (bool * list ArtifactInfo * string) :=
  _ ← qclient_update_job_step job_id "Step 3 of 4: Finishing fastp and minimap2";
  let out_files := [] in
  lines ← read_lines (out_dir +:+ "/" +:+ job_id +:+ ".out_files.tsv");
  out_files ← pure (for_line lines out_files);
  let msg := "Step 4 of 4: Generating new artifact" in
  _ ← qclient_update_job_step job_id msg;
  let ainfo := [ {| output_name := "Filtered files";
                    artifact_type := "per_sample_FASTQ";
                    artifact_files := out_files |} ] in
  mret (true, ainfo, "").

(** ** Vocabulary of the properties *)

(** The text of a parameter that [str.format] inserts, when it has one
    without a percent sign. *)
Definition plain_text (v : pyval) (s : string) : Prop :=
  py_str v = Ret s ∧ has_char "%" s = false.

(** The command line of one input file, for the texts [n], [p] and [o] of
    [nprocs], [primer] and [out_dir]. *)
Definition ivar_command (n p o bam : string) : string :=
  "ivar trim -x " +:+ n +:+ " -e -b " +:+ p +:+ " -i " +:+ bam
  +:+ " -p " +:+ o +:+ "/" +:+ basename bam.

(** The manifest entry of one input file. *)
Definition trimmed_entry (o bam : string) : string * string :=
  (o +:+ "/" +:+ basename bam, "trimmed").

(** *** The pipeline variants of the specification *)

Inductive PipelineVariant : Type :=
| combined_paired
| filter_only_paired
| combined_single
| filter_only_single.

(** The table of the specification: the variant of a run that has, or has
    not, reverse reads and a reference. *)
Definition spec_variant (has_reverse has_reference : bool) : PipelineVariant :=
  match has_reverse, has_reference with
  | true, true => combined_paired
  | true, false => filter_only_paired
  | false, true => combined_single
  | false, false => filter_only_single
  end.

(** The template of a variant among the constants of lines 31-37. *)
Definition variant_template (v : PipelineVariant) : string :=
  match v with
  | combined_paired => COMBINED_CMD
  | filter_only_paired => FASTP_CMD
  | combined_single => COMBINED_CMD_SINGLE
  | filter_only_single => FASTP_CMD_SINGLE
  end.

(** [cmd] is [template] with its replacement fields and its directives
    filled in, whatever the values. *)
Definition instance_of (template cmd : string) : Prop :=
  ∃ kw args, py_format template kw ≫= (λ c, py_mod c args) = Ret cmd.

(** The manifest order of the specification: the entries of the forward
    role, then the entries of the reverse role.  The labels are the keys of
    [files] (lines 133-135). *)
Definition grouped_by_role (manifest : list (string * string)) : Prop :=
  ∃ fwd rev, manifest = fwd ++ rev
    ∧ Forall (λ e, e.2 = "raw_forward_seqs") fwd
    ∧ Forall (λ e, e.2 = "raw_reverse_seqs") rev.


(** What the interpreter raises at the call of lines 148-149. *)
Definition five_given : exn :=
  TypeError "_generate_commands() takes 4 positional arguments but 5 were given".

(** The reference catalog: the entries of the reference directory that
    [glob] reports for [*.bed], in the order of the listing. *)
Definition catalog (w : world) : list string :=
  List.filter matches_bed (scandir w (split_head (QC_REFERENCE_DB w +:+ "/*.bed"))).

(** The reference directory is named without a wildcard of [glob]. *)
Definition plain_reference_dir (w : world) : Prop :=
  has_magic (split_head (QC_REFERENCE_DB w +:+ "/*.bed")) = false.

(** *** A small installation, for the examples *)

Definition example_world : world := {|
  QC_REFERENCE_DB := "/databases/bed";
  scandir := λ d,
    if String.eqb d "/databases/bed"
    then ["artifacts.bed"; "artifacts_phix.bed"; "human.bed"; "README.txt"]
    else [];
  read_csv_columns := λ path,
    if String.eqb path "/in/prep.tsv"
    then Ret ["sample_name"; "run_prefix"; "barcode"]
    else Raise (FileNotFoundError path);
  os_write := λ path text fs, (None, <[path := text]> fs);
|}.

Definition example_params : gmap string pyval :=
  <["reference" := PyStr "phix"]>
    (<["threads" := PyInt 2]>
       (<["environment" := PyStr "source activate qp-fastp-minimap2"]> ∅)).

Definition example_files : gmap string (list string) :=
  <["raw_forward_seqs" := ["/in/S22282_R1.fastq.gz"; "/in/S22205_R1.fastq.gz"]]>
    (<["raw_reverse_seqs" := ["/in/S22282_R2.fastq.gz"; "/in/S22205_R2.fastq.gz"]]> ∅).

(** *** The task body of the array job *)

(** The lines of a text as [head] and [tail] count them: a line ends at a
    line feed, and a last line without one counts too.  [cur] is the line
    being read. *)
Fixpoint lines_from (cur s : string) : list string :=
  match s with
  | "" => flush_word cur []
  | String c r =>
      if chr_is c "010" then cur :: lines_from "" r
      else lines_from (cur +:+ String c "") r
  end.

Definition text_lines (text : string) : list string := lines_from "" text.

(** What [head -n step file | tail -n 1] prints for a file with this text:
    the last of its first [step] lines. *)
Definition head_tail (step : nat) (text : string) : option string :=
  last (take step (text_lines text)).

(** A command that is one line of the details file. *)
Definition one_line (cmd : string) : Prop := cmd ≠ "" ∧ has_char "010" cmd = false.

(** The last character of a text. *)
Fixpoint last_chr (s : string) : option ascii :=
  match s with
  | "" => None
  | String c r => if String.eqb r "" then Some c else last_chr r
  end.

(** *** The manifest file *)

(** A manifest entry whose path and role have no whitespace. *)
Definition whitespace_free (e : string * string) : Prop :=
  has_space e.1 = false ∧ has_space e.2 = false.

(** A manifest entry that its line of the manifest file determines: path
    and role are not empty and have no whitespace. *)
Definition entry_readable (e : string * string) : Prop :=
  e.1 ≠ "" ∧ e.2 ≠ "" ∧ whitespace_free e.

(** The lines of a file that was written as [LF.join(lines)], as
    [readlines] returns them: all but the last end with a line feed. *)
Fixpoint terminated (lines : list string) : list string :=
  match lines with
  | [] => []
  | [x] => [x]
  | x :: r => (x +:+ LF) :: terminated r
  end.

(** A host that records the steps it is told and never fails. *)
#[global] Instance recording_host : QiitaClient (list (string * string)) := {|
  update_job_step := λ job_id msg h, (Ret (), h ++ [(job_id, msg)]);
|}.

(** *** Line ends of a manifest file *)

(** A text made of lines, each followed by its own line end. *)
Fixpoint with_ends (lines : list (string * string)) : string :=
  match lines with
  | [] => ""
  | (l, t) :: r => l +:+ t +:+ with_ends r
  end.

(** The three line ends that a text file can have. *)
Definition line_end (t : string) : Prop := t = LF ∨ t = CR ∨ t = CR +:+ LF.

(** The manifest line of an entry, with the line end that comes with it. *)
Definition manifest_row (row : string * string * string) : string * string :=
  (row.1.1 +:+ TAB +:+ row.1.2, row.2).

(** * Properties *)

(** ** Strings *)

Section strings.
Implicit Types (s t u : string) (c d : ascii).

Lemma append_assoc s t u : (s +:+ t) +:+ u = s +:+ t +:+ u.
Proof. induction s as [|c s IH]; simpl; [done | by rewrite IH]. Qed.

Lemma append_nil_r s : s +:+ "" = s.
Proof. induction s as [|c s IH]; simpl; [done | by rewrite IH]. Qed.

Lemma append_length s t : String.length (s +:+ t) = String.length s + String.length t.
Proof. induction s as [|c s IH]; simpl; [done | by rewrite IH]. Qed.

Lemma chr_is_true c d : chr_is c d = true ↔ c = d.
Proof. apply Ascii.eqb_eq. Qed.

Lemma chr_is_false c d : chr_is c d = false ↔ c ≠ d.
Proof. apply Ascii.eqb_neq. Qed.

Lemma has_char_append c s t : has_char c (s +:+ t) = has_char c s || has_char c t.
Proof.
  induction s as [|d s IH]; simpl; [done |].
  by rewrite IH, orb_assoc.
Qed.

Lemma has_char_cons_false c d s :
  has_char c (String d s) = false → chr_is d c = false ∧ has_char c s = false.
Proof. simpl. apply orb_false_elim. Qed.
End strings.

(** ** The two formatting steps of [_generate_commands] *)

Lemma outcome_fmap_ret {A B} (f : A → B) (o : outcome A) (a : A) :
  o = Ret a → f <$> o = Ret (f a).
Proof. by intros ->. Qed.

(** Text without a percent sign is copied by [%]. *)
Lemma py_mod_literal (p r : string) (args : list string) :
  has_char "%" p = false →
  py_mod (p +:+ r) args = String.append p <$> py_mod r args.
Proof.
  induction p as [|c p IH]; intros Hp.
  - simpl. by destruct (py_mod r args).
  - apply has_char_cons_false in Hp as [Hc Hp].
    change (String c p +:+ r) with (String c (p +:+ r)).
    cbn [py_mod]. rewrite Hc, (IH Hp).
    by destruct (py_mod r args).
Qed.

(** The directive [%s] takes the next argument. *)
Lemma py_mod_s (r a : string) (args : list string) :
  py_mod ("%s" +:+ r) (a :: args) = String.append a <$> py_mod r args.
Proof. reflexivity. Qed.

(** A command line with two [%s] and no other percent sign. *)
Lemma py_mod_two (pre mid a b : string) :
  has_char "%" pre = false → has_char "%" mid = false →
  py_mod (pre +:+ "%s" +:+ mid +:+ "%s") [a; b] = Ret (pre +:+ a +:+ mid +:+ b).
Proof.
  intros Hpre Hmid.
  rewrite (py_mod_literal pre) by done. rewrite py_mod_s.
  rewrite (py_mod_literal mid) by done.
  change (py_mod "%s" [b]) with (Ret (b +:+ "")).
  simpl. by rewrite append_nil_r.
Qed.

Lemma format_field_lookup (kw : list (string * pyval)) (name : string) (v : pyval) :
  all_digits name = false → kw_lookup kw name = Some v → format_field kw name = py_str v.
Proof. unfold format_field. by intros -> ->. Qed.

(** [IVAR_TRIM_CMD.format(nprocs=..., primer=..., out_dir=...)] *)
Lemma format_IVAR_TRIM_CMD (primer nprocs out_dir : pyval) (p n o : string) :
  py_str primer = Ret p → py_str nprocs = Ret n → py_str out_dir = Ret o →
  py_format IVAR_TRIM_CMD [("nprocs", nprocs); ("primer", primer); ("out_dir", out_dir)]
  = Ret ("ivar trim -x " +:+ n +:+ " -e -b " +:+ p +:+ " -i %s -p " +:+ o +:+ "/%s").
Proof.
  intros Hp Hn Ho. unfold py_format.
  change IVAR_TRIM_CMD with "ivar trim -x {nprocs} -e -b {primer} -i %s -p {out_dir}/%s".
  cbn -[py_str format_field].
  rewrite (format_field_lookup _ "nprocs" nprocs), (format_field_lookup _ "primer" primer),
    (format_field_lookup _ "out_dir" out_dir) by reflexivity.
  rewrite Hp, Hn, Ho. reflexivity.
Qed.


(** The decimal text of an integer has no percent sign. *)
Lemma has_char_percent_uint (d : Decimal.uint) :
  has_char "%" (NilEmpty.string_of_uint d) = false.
Proof. induction d; simpl; auto. Qed.

Lemma plain_text_int (z : Z) : plain_text (PyInt z) (NilZero.string_of_int (Z.to_int z)).
Proof.
  split; [done |].
  destruct (Z.to_int z) as [d | d]; simpl; unfold NilZero.string_of_uint.
  - destruct d; try apply has_char_percent_uint; reflexivity.
  - destruct d; try (apply (has_char_percent_uint (_ d))); reflexivity.
Qed.

(** ** What [_generate_commands] returns *)

Section generate_commands.
Variables (primer nprocs out_dir : pyval).

(** Whatever the loop returns extends both lists by one item per file,
    and the manifest does not depend on the command texts. *)
Lemma for_bam_ret command o bams cs ofs cs' ofs' :
  for_bam command o bams cs ofs = Ret (cs', ofs') →
  length cs' = length cs + length bams ∧ ofs' = ofs ++ map (trimmed_entry o) bams.
Proof.
  revert cs ofs. induction bams as [|bam bams IH]; intros cs ofs; simpl.
  - intros [= <- <-]. by rewrite Nat.add_0_r, app_nil_r.
  - destruct (py_mod command [bam; basename bam]) as [cmd| |]; simpl; try done.
    intros [Hlen ->]%IH. rewrite length_app in Hlen. simpl in Hlen.
    split; [lia |]. by rewrite <- app_assoc.
Qed.

(** The loop on a command line that has its two [%s] and no other
    percent sign. *)
Lemma for_bam_plain pre mid o bams cs ofs :
  has_char "%" pre = false → has_char "%" mid = false →
  for_bam (pre +:+ "%s" +:+ mid +:+ "%s") o bams cs ofs
  = Ret (cs ++ map (λ bam, pre +:+ bam +:+ mid +:+ basename bam) bams,
         ofs ++ map (trimmed_entry o) bams).
Proof.
  intros Hpre Hmid. revert cs ofs.
  induction bams as [|bam bams IH]; intros cs ofs; cbn [for_bam map].
  - by rewrite !app_nil_r.
  - rewrite py_mod_two by done. cbn [mbind outcome_bind]. rewrite IH.
    by rewrite <- !app_assoc.
Qed.

(** Every command that the loop adds is the command line with the path and
    the base name of a file written into it. *)
Lemma for_bam_inv command o bams cs ofs cs' ofs' :
  for_bam command o bams cs ofs = Ret (cs', ofs') →
  ∃ new, cs' = cs ++ new
    ∧ Forall2 (λ bam cmd, py_mod command [bam; basename bam] = Ret cmd) bams new.
Proof.
  revert cs ofs. induction bams as [|bam bams IH]; intros cs ofs; cbn [for_bam].
  - intros [= <- <-]. exists []. by rewrite app_nil_r.
  - destruct (py_mod command [bam; basename bam]) as [cmd| |] eqn:Hcmd; simpl; try done.
    intros (new & -> & Hnew)%IH. exists (cmd :: new).
    split; [by rewrite <- app_assoc | by constructor].
Qed.


Lemma generate_commands_ret bams commands out_files o :
  py_str out_dir = Ret o →
  _generate_commands (PyList bams) primer nprocs out_dir = Ret (commands, out_files) →
  length commands = length bams ∧ out_files = map (trimmed_entry o) bams.
Proof.
  intros Ho. unfold _generate_commands.
  destruct (py_format _ _) as [command| |]; simpl; try done.
  rewrite Ho. simpl. apply for_bam_ret.
Qed.

(** What a call that returns has gone through. *)
Lemma generate_commands_steps (bam_file : pyval)
    (commands : list string) (out_files : list (string * string)) :
  _generate_commands bam_file primer nprocs out_dir = Ret (commands, out_files) →
  ∃ command bams o,
    py_format IVAR_TRIM_CMD [("nprocs", nprocs); ("primer", primer); ("out_dir", out_dir)]
    = Ret command
    ∧ py_iter bam_file = Ret bams ∧ py_str out_dir = Ret o
    ∧ Forall2 (λ bam cmd, py_mod command [bam; basename bam] = Ret cmd) bams commands
    ∧ out_files = map (trimmed_entry o) bams.
Proof.
  unfold _generate_commands.
  destruct (py_format _ _) as [command| |]; simpl; try done.
  destruct (py_iter bam_file) as [bams| |]; simpl; try done.
  destruct (py_str out_dir) as [o| |]; simpl; try done.
  intros H. exists command, bams, o.
  destruct (for_bam_inv _ _ _ _ _ _ _ H) as (new & -> & Hnew).
  apply for_bam_ret in H as [_ ->]. done.
Qed.

Lemma generate_commands_inv (bam_file : pyval)
    (commands : list string) (out_files : list (string * string)) :
  _generate_commands bam_file primer nprocs out_dir = Ret (commands, out_files) →
  ∃ bams o, py_iter bam_file = Ret bams ∧ py_str out_dir = Ret o
    ∧ length commands = length bams ∧ out_files = map (trimmed_entry o) bams.
Proof.
  intros (command & bams & o & _ & Hiter & Ho & Hcmds & ->)%generate_commands_steps.
  exists bams, o. by rewrite <- (Forall2_length _ _ _ Hcmds).
Qed.

Lemma generate_commands_plain_iter (bam_file : pyval) bams p n o :
  py_iter bam_file = Ret bams →
  plain_text primer p → plain_text nprocs n → plain_text out_dir o →
  _generate_commands bam_file primer nprocs out_dir
  = Ret (map (ivar_command n p o) bams, map (trimmed_entry o) bams).
Proof.
  intros Hiter [Hp Hp'] [Hn Hn'] [Ho Ho']. unfold _generate_commands.
  rewrite (format_IVAR_TRIM_CMD _ _ _ p n o) by done. cbn [mbind outcome_bind].
  rewrite Hiter. cbn [mbind outcome_bind]. rewrite Ho. cbn [mbind outcome_bind].
  pose (pre := "ivar trim -x " +:+ n +:+ " -e -b " +:+ p +:+ " -i ").
  pose (mid := " -p " +:+ o +:+ "/").
  assert (Hpre : has_char "%" pre = false).
  { unfold pre. rewrite !has_char_append, Hn', Hp'. reflexivity. }
  assert (Hmid : has_char "%" mid = false).
  { unfold mid. rewrite !has_char_append, Ho'. reflexivity. }
  pose proof (for_bam_plain pre mid o bams [] [] Hpre Hmid) as H.
  unfold pre, mid in H. rewrite !append_assoc in H. simpl in H.
  simpl. rewrite H. f_equal. f_equal.
  apply map_ext. intros bam. unfold ivar_command.
  rewrite !append_assoc. simpl. by rewrite !append_assoc.
Qed.

Lemma generate_commands_plain bams p n o :
  plain_text primer p → plain_text nprocs n → plain_text out_dir o →
  _generate_commands (PyList bams) primer nprocs out_dir
  = Ret (map (ivar_command n p o) bams, map (trimmed_entry o) bams).
Proof. by apply generate_commands_plain_iter. Qed.

End generate_commands.

(** ** Base names *)

Lemma basename_from_no_slash (cur p : string) :
  has_char "/" p = false → basename_from cur p = cur.
Proof.
  induction p as [|c p IH]; simpl; [done |].
  intros [-> Hp]%orb_false_elim. auto.
Qed.

Lemma basename_from_clean (x p : string) :
  has_char "/" x = false → has_char "/" (basename_from (x +:+ p) p) = false.
Proof.
  revert x. induction p as [|c p IH]; intros x Hx; simpl.
  - by rewrite append_nil_r.
  - destruct (chr_is c "/") eqn:Hc.
    + apply (IH "" eq_refl).
    + replace (x +:+ String c p) with ((x +:+ String c "") +:+ p)
        by (by rewrite append_assoc).
      apply IH. rewrite has_char_append, Hx. simpl. by rewrite Hc.
Qed.

(** A base name has no separator. *)
Lemma basename_clean (p : string) : has_char "/" (basename p) = false.
Proof. apply (basename_from_clean "" p eq_refl). Qed.

(** The base name of a path that ends in a name without separator. *)
Lemma basename_from_slash (cur a n : string) :
  has_char "/" n = false → basename_from cur (a +:+ String "/" n) = n.
Proof.
  intros Hn. revert cur. induction a as [|c a IH]; intros cur; simpl.
  - by apply basename_from_no_slash.
  - destruct (chr_is c "/"); apply IH.
Qed.

Lemma startswith_clean (n : string) : has_char "/" n = false → startswith n "/" = false.
Proof. destruct n as [|c n]; simpl; [done |]. by intros [-> _]%orb_false_elim. Qed.

Lemma endswith_slash (s : string) : endswith s "/" = true → ∃ a, s = a +:+ "/".
Proof.
  induction s as [|c s IH]; [done |]. cbn [endswith].
  destruct (String.eqb_spec (String c s) "/") as [-> | _]; cbn [orb].
  - intros _. by exists "".
  - intros [a ->]%IH. by exists (String c a).
Qed.

(** [f'{o}/{b}'] is [join(o, b)] when [o] is a directory name without a
    trailing separator and [b] is relative. *)
Lemma slash_concat_join (o b : string) :
  o ≠ "" → endswith o "/" = false → startswith b "/" = false →
  o +:+ "/" +:+ b = join o b.
Proof.
  intros Ho He Hb. unfold join. rewrite Hb, He.
  by destruct (String.eqb_spec o "").
Qed.

(** [basename(join(d, n))] for a directory entry [n]. *)
Lemma basename_join (d n : string) : has_char "/" n = false → basename (join d n) = n.
Proof.
  intros Hn. unfold join, basename. rewrite (startswith_clean n Hn).
  destruct (String.eqb_spec d "") as [-> | Hd]; simpl.
  - by apply basename_from_no_slash.
  - destruct (endswith d "/") eqn:He.
    + apply endswith_slash in He as [a ->]. rewrite append_assoc. simpl.
      by apply basename_from_slash.
    + simpl. by apply basename_from_slash.
Qed.

(** A path is its base name, or a directory part, a separator and its base
    name; with [basename_clean] this says which part of the path the base
    name is. *)
Lemma basename_from_split (x p : string) :
  has_char "/" x = false →
  basename_from (x +:+ p) p = x +:+ p
  ∨ ∃ d, x +:+ p = d +:+ "/" +:+ basename_from (x +:+ p) p.
Proof.
  revert x. induction p as [|c p IH]; intros x Hx; [by left |].
  cbn [basename_from]. destruct (chr_is c "/") eqn:Hc.
  - apply chr_is_true in Hc. subst c. right.
    destruct (IH "" eq_refl) as [H | [d H]]; cbn [String.append] in H.
    + exists x. by rewrite H.
    + exists (x +:+ "/" +:+ d). rewrite H at 1. by rewrite !append_assoc.
  - replace (x +:+ String c p) with ((x +:+ String c "") +:+ p)
      by (by rewrite append_assoc).
    apply IH. rewrite has_char_append, Hx. simpl. by rewrite Hc.
Qed.

Lemma basename_split (p : string) : basename p = p ∨ ∃ d, p = d +:+ "/" +:+ basename p.
Proof. apply (basename_from_split "" p eq_refl). Qed.

(** [f'{o}/{b}'] is [join(o, b)] only then. *)
Lemma slash_concat_join_iff (o b : string) :
  startswith b "/" = false →
  o +:+ "/" +:+ b = join o b ↔ o ≠ "" ∧ endswith o "/" = false.
Proof.
  intros Hb. split; [| by intros [? ?]; apply slash_concat_join].
  unfold join. rewrite Hb. destruct (String.eqb_spec o "") as [-> | Hne]; cbn [orb].
  - intros H. apply (f_equal String.length) in H. simpl in H. lia.
  - destruct (endswith o "/"); [| done].
    intros H. apply (f_equal String.length) in H. rewrite !append_length in H.
    simpl in H. lia.
Qed.

(** ** The command plan *)

(** C1, as the code has it.  Every command of an invocation that returns is
    an instance of the one template [IVAR_TRIM_CMD]: the template with the
    thread count, the primer and the output directory of the invocation
    written into it by [str.format], and then the path and the base name of
    the input file by [%]; the same filled template serves every file, and
    no variant is chosen.  When the texts of the three parameters have no
    percent sign the builder returns, and the command of a file is
    [ivar_command]. *)
Theorem commands_follow_ivar_template (bam_file primer nprocs out_dir : pyval) :
  (∀ commands out_files,
     _generate_commands bam_file primer nprocs out_dir = Ret (commands, out_files) →
     ∃ command bams,
       py_format IVAR_TRIM_CMD [("nprocs", nprocs); ("primer", primer); ("out_dir", out_dir)]
       = Ret command
       ∧ py_iter bam_file = Ret bams
       ∧ Forall2 (λ bam cmd, py_mod command [bam; basename bam] = Ret cmd) bams commands
       ∧ Forall (instance_of IVAR_TRIM_CMD) commands)
  ∧ (∀ bams p n o,
       py_iter bam_file = Ret bams →
       plain_text primer p → plain_text nprocs n → plain_text out_dir o →
       ∃ out_files,
         _generate_commands bam_file primer nprocs out_dir
         = Ret (map (ivar_command n p o) bams, out_files)).
Proof.
  split.
  - intros commands out_files
      (command & bams & o & Hfmt & Hiter & _ & Hcmds & _)%generate_commands_steps.
    exists command, bams. split; [done |]. split; [done |]. split; [done |].
    clear Hiter. induction Hcmds as [|bam cmd bams commands Hcmd _ IH]; constructor; [| done].
    exists [("nprocs", nprocs); ("primer", primer); ("out_dir", out_dir)], [bam; basename bam].
    by rewrite Hfmt.
  - intros bams p n o Hiter Hp Hn Ho. eexists.
    by apply generate_commands_plain_iter.
Qed.

(** C4, as the code has it.  The builder takes one list of input files; an
    invocation that returns has one command for each item of that list, and
    the builder returns when the texts of the primer, the thread count and
    the output directory have no percent sign. *)
Theorem one_command_per_sample (bam_file primer nprocs out_dir : pyval) :
  (∀ commands out_files,
     _generate_commands bam_file primer nprocs out_dir = Ret (commands, out_files) →
     ∃ bams, py_iter bam_file = Ret bams ∧ length commands = length bams)
  ∧ (∀ bams p n o,
       py_iter bam_file = Ret bams →
       plain_text primer p → plain_text nprocs n → plain_text out_dir o →
       ∃ commands out_files,
         _generate_commands bam_file primer nprocs out_dir = Ret (commands, out_files)
         ∧ length commands = length bams).
Proof.
  split.
  - intros commands out_files (bams & o & Hiter & _ & Hlen & _)%generate_commands_inv.
    by exists bams.
  - intros bams p n o Hiter Hp Hn Ho. eexists _, _.
    split; [by apply generate_commands_plain_iter |]. by rewrite length_map.
Qed.

(** C6, as the code has it.  The manifest of an invocation that returns is
    one run of entries, one for each input file and in the order of the
    files, and the role of every entry is ["trimmed"]; it is grouped by
    forward and reverse role only when it is empty.  The builder returns
    such a manifest when the texts of its parameters have no percent sign. *)
Theorem manifest_is_one_trimmed_block (bam_file primer nprocs out_dir : pyval) :
  (∀ commands out_files,
     _generate_commands bam_file primer nprocs out_dir = Ret (commands, out_files) →
     ∃ bams o,
       py_iter bam_file = Ret bams ∧ py_str out_dir = Ret o
       ∧ out_files = map (trimmed_entry o) bams
       ∧ Forall (λ e, e.2 = "trimmed") out_files
       ∧ (grouped_by_role out_files → out_files = []))
  ∧ (∀ bams p n o,
       py_iter bam_file = Ret bams →
       plain_text primer p → plain_text nprocs n → plain_text out_dir o →
       ∃ commands,
         _generate_commands bam_file primer nprocs out_dir
         = Ret (commands, map (trimmed_entry o) bams)).
Proof.
  split.
  - intros commands out_files (bams & o & Hiter & Ho & _ & ->)%generate_commands_inv.
    exists bams, o. split; [done |]. split; [done |]. split; [done |].
    assert (Forall (λ e : string * string, e.2 = "trimmed") (map (trimmed_entry o) bams))
      as Hall.
    { apply Forall_forall. by intros e (bam & -> & _)%list_elem_of_fmap. }
    split; [done |].
    intros (fwd & rev & Heq & Hfwd & Hrev). rewrite Heq in Hall |- *.
    apply Forall_app in Hall as [Hf Hr].
    destruct fwd as [|e fwd].
    + destruct rev as [|e rev]; [done |].
      apply Forall_cons in Hr as [Hr _]. apply Forall_cons in Hrev as [Hrev _]. congruence.
    + apply Forall_cons in Hf as [Hf _]. apply Forall_cons in Hfwd as [Hfwd _]. congruence.
  - intros bams p n o Hiter Hp Hn Ho. eexists.
    by apply generate_commands_plain_iter.
Qed.

(** C7, as the code has it.  In the manifest of an invocation that returns,
    the path of the entry of an input file is the text of the output
    directory, a separator and the base name of that file, which is the part
    of its path after the last separator.  This text is [join] of the
    directory and the base name exactly when the name of the directory is
    not empty and does not end with a separator.  The builder returns such a
    manifest when the texts of its parameters have no percent sign. *)
Theorem manifest_paths_from_basenames (bam_file primer nprocs out_dir : pyval) :
  (∀ commands out_files,
     _generate_commands bam_file primer nprocs out_dir = Ret (commands, out_files) →
     ∃ bams o,
       py_iter bam_file = Ret bams ∧ py_str out_dir = Ret o
       ∧ Forall2 (λ bam e,
           e.1 = o +:+ "/" +:+ basename bam
           ∧ has_char "/" (basename bam) = false
           ∧ (basename bam = bam ∨ ∃ d, bam = d +:+ "/" +:+ basename bam)
           ∧ (e.1 = join o (basename bam) ↔ o ≠ "" ∧ endswith o "/" = false))
         bams out_files)
  ∧ (∀ bams p n o,
       py_iter bam_file = Ret bams →
       plain_text primer p → plain_text nprocs n → plain_text out_dir o →
       ∃ commands,
         _generate_commands bam_file primer nprocs out_dir
         = Ret (commands, map (λ bam, (o +:+ "/" +:+ basename bam, "trimmed")) bams)).
Proof.
  split.
  - intros commands out_files (bams & o & Hiter & Ho & _ & ->)%generate_commands_inv.
    exists bams, o. split; [done |]. split; [done |].
    apply Forall2_fmap_r, Forall_Forall2_diag, Forall_forall.
    intros bam _. cbn [trimmed_entry fst].
    split; [done |]. split; [apply basename_clean |]. split; [apply basename_split |].
    apply slash_concat_join_iff, startswith_clean, basename_clean.
  - intros bams p n o Hiter Hp Hn Ho. eexists.
    by apply generate_commands_plain_iter.
Qed.

Lemma commands_follow_ivar_template_witness :
  (∃ command bams,
     py_format IVAR_TRIM_CMD
       [("nprocs", PyInt 2); ("primer", PyStr "50%%.bed"); ("out_dir", PyStr "/out")]
     = Ret command
     ∧ py_iter (PyList ["/in/sz1.bam"]) = Ret bams
     ∧ Forall2 (λ bam cmd, py_mod command [bam; basename bam] = Ret cmd) bams
         ["ivar trim -x 2 -e -b 50%.bed -i /in/sz1.bam -p /out/sz1.bam"]
     ∧ Forall (instance_of IVAR_TRIM_CMD)
         ["ivar trim -x 2 -e -b 50%.bed -i /in/sz1.bam -p /out/sz1.bam"])
  ∧ ∃ out_files,
      _generate_commands (PyList ["/in/sz1.bam"; "/in/sc1.bam"])
        (PyStr "primers.bed") (PyInt 2) (PyStr "/out")
      = Ret ([ "ivar trim -x 2 -e -b primers.bed -i /in/sz1.bam -p /out/sz1.bam";
               "ivar trim -x 2 -e -b primers.bed -i /in/sc1.bam -p /out/sc1.bam" ],
             out_files).
Proof.
  split.
  - apply (proj1 (commands_follow_ivar_template (PyList ["/in/sz1.bam"]) (PyStr "50%%.bed")
                    (PyInt 2) (PyStr "/out"))
             ["ivar trim -x 2 -e -b 50%.bed -i /in/sz1.bam -p /out/sz1.bam"]
             [("/out/sz1.bam", "trimmed")]).
    reflexivity.
  - apply (proj2 (commands_follow_ivar_template (PyList ["/in/sz1.bam"; "/in/sc1.bam"])
                    (PyStr "primers.bed") (PyInt 2) (PyStr "/out"))
             ["/in/sz1.bam"; "/in/sc1.bam"] "primers.bed" "2" "/out");
      [reflexivity | split; reflexivity ..].
Defined.

Lemma one_command_per_sample_witness :
  (∃ bams, py_iter (PyList ["/in/sz1.bam"]) = Ret bams
     ∧ length ["ivar trim -x 2 -e -b 50%.bed -i /in/sz1.bam -p /out/sz1.bam"] = length bams)
  ∧ ∃ commands out_files,
      _generate_commands (PyList ["/in/sz1.bam"; "/in/sc1.bam"])
        (PyStr "primers.bed") (PyInt 2) (PyStr "/out") = Ret (commands, out_files)
      ∧ length commands = length ["/in/sz1.bam"; "/in/sc1.bam"].
Proof.
  split.
  - apply (proj1 (one_command_per_sample (PyList ["/in/sz1.bam"]) (PyStr "50%%.bed")
                    (PyInt 2) (PyStr "/out"))
             ["ivar trim -x 2 -e -b 50%.bed -i /in/sz1.bam -p /out/sz1.bam"]
             [("/out/sz1.bam", "trimmed")]).
    reflexivity.
  - apply (proj2 (one_command_per_sample (PyList ["/in/sz1.bam"; "/in/sc1.bam"])
                    (PyStr "primers.bed") (PyInt 2) (PyStr "/out"))
             ["/in/sz1.bam"; "/in/sc1.bam"] "primers.bed" "2" "/out");
      [reflexivity | split; reflexivity ..].
Defined.

Lemma manifest_is_one_trimmed_block_witness :
  let manifest := [("/out/a_R1.fastq.gz", "trimmed"); ("/out/b_R1.fastq.gz", "trimmed")] in
  (∃ bams o,
     py_iter (PyList ["/in/a_R1.fastq.gz"; "/in/b_R1.fastq.gz"]) = Ret bams
     ∧ py_str (PyStr "/out") = Ret o
     ∧ manifest = map (trimmed_entry o) bams
     ∧ Forall (λ e, e.2 = "trimmed") manifest
     ∧ (grouped_by_role manifest → manifest = []))
  ∧ ∃ commands,
      _generate_commands (PyList ["/in/sz1.bam"; "/in/sc1.bam"])
        (PyStr "primers.bed") (PyInt 2) (PyStr "/out")
      = Ret (commands, map (trimmed_entry "/out") ["/in/sz1.bam"; "/in/sc1.bam"]).
Proof.
  split.
  - apply (proj1 (manifest_is_one_trimmed_block
                    (PyList ["/in/a_R1.fastq.gz"; "/in/b_R1.fastq.gz"])
                    (PyList ["/in/a_R2.fastq.gz"; "/in/b_R2.fastq.gz"])
                    (PyInt 2) (PyStr "/out"))
             [ "ivar trim -x 2 -e -b ['/in/a_R2.fastq.gz', '/in/b_R2.fastq.gz'] -i /in/a_R1.fastq.gz -p /out/a_R1.fastq.gz";
               "ivar trim -x 2 -e -b ['/in/a_R2.fastq.gz', '/in/b_R2.fastq.gz'] -i /in/b_R1.fastq.gz -p /out/b_R1.fastq.gz" ]).
    reflexivity.
  - apply (proj2 (manifest_is_one_trimmed_block (PyList ["/in/sz1.bam"; "/in/sc1.bam"])
                    (PyStr "primers.bed") (PyInt 2) (PyStr "/out"))
             ["/in/sz1.bam"; "/in/sc1.bam"] "primers.bed" "2" "/out");
      [reflexivity | split; reflexivity ..].
Defined.

Lemma manifest_paths_from_basenames_witness :
  (∃ bams o,
     py_iter (PyList ["/in/sz1.bam"]) = Ret bams ∧ py_str (PyStr "/out/") = Ret o
     ∧ Forall2 (λ bam e,
         e.1 = o +:+ "/" +:+ basename bam
         ∧ has_char "/" (basename bam) = false
         ∧ (basename bam = bam ∨ ∃ d, bam = d +:+ "/" +:+ basename bam)
         ∧ (e.1 = join o (basename bam) ↔ o ≠ "" ∧ endswith o "/" = false))
       bams [("/out//sz1.bam", "trimmed")])
  ∧ ∃ commands,
      _generate_commands (PyList ["/in/sz1.bam"; "/in/sc1.bam"])
        (PyStr "primers.bed") (PyInt 2) (PyStr "/out")
      = Ret (commands, [("/out/sz1.bam", "trimmed"); ("/out/sc1.bam", "trimmed")]).
Proof.
  split.
  - apply (proj1 (manifest_paths_from_basenames (PyList ["/in/sz1.bam"]) (PyStr "primers.bed")
                    (PyInt 2) (PyStr "/out/"))
             ["ivar trim -x 2 -e -b primers.bed -i /in/sz1.bam -p /out//sz1.bam"]).
    reflexivity.
  - apply (proj2 (manifest_paths_from_basenames (PyList ["/in/sz1.bam"; "/in/sc1.bam"])
                    (PyStr "primers.bed") (PyInt 2) (PyStr "/out"))
             ["/in/sz1.bam"; "/in/sc1.bam"] "primers.bed" "2" "/out");
      [reflexivity | split; reflexivity ..].
Defined.

(** *** The four variants of the specification are not what the builder emits *)

Lemma format_scan_head (kw : list (string * pyval)) (c : ascii) (t x : string) :
  chr_is c "{" = false → chr_is c "}" = false →
  format_scan kw None (String c t) = Ret x → ∃ x', x = String c x'.
Proof.
  intros H1 H2. cbn [format_scan]. rewrite H1, H2.
  destruct (format_scan kw None t) as [x'| |]; simpl; [|done..].
  intros [= <-]. by exists x'.
Qed.

Lemma py_mod_head (c : ascii) (t x : string) (args : list string) :
  chr_is c "%" = false → py_mod (String c t) args = Ret x → ∃ x', x = String c x'.
Proof.
  intros H. cbn [py_mod]. rewrite H.
  destruct (py_mod t args) as [x'| |]; simpl; [|done..].
  intros [= <-]. by exists x'.
Qed.

(** An instance of a template starts like the template. *)
Lemma instance_of_head (c : ascii) (t cmd : string) :
  chr_is c "{" = false → chr_is c "}" = false → chr_is c "%" = false →
  instance_of (String c t) cmd → ∃ r, cmd = String c r.
Proof.
  intros H1 H2 H3 (kw & args & H). unfold py_format in H.
  destruct (format_scan kw None (String c t)) as [x| |] eqn:Hx; simpl in H; [|done..].
  apply format_scan_head in Hx as [x' ->]; [|done..].
  by apply py_mod_head in H.
Qed.

(** C1 at a concrete invocation: the command that the builder emits is an
    instance of none of the four variants of the specification. *)
Lemma generate_commands_not_a_variant :
  _generate_commands (PyList ["/in/sz1.bam"]) (PyStr "primers.bed") (PyInt 2) (PyStr "/out")
  = Ret (["ivar trim -x 2 -e -b primers.bed -i /in/sz1.bam -p /out/sz1.bam"],
         [("/out/sz1.bam", "trimmed")])
  ∧ ∀ has_reverse has_reference,
      ¬ instance_of (variant_template (spec_variant has_reverse has_reference))
          "ivar trim -x 2 -e -b primers.bed -i /in/sz1.bam -p /out/sz1.bam".
Proof.
  split; [reflexivity |].
  intros [] [] H; apply instance_of_head in H as [r [=]]; reflexivity.
Qed.

(** *** Invocations with a reverse list *)

Lemma five_arguments_raise_eq (a b c d e : pyval) :
  call__generate_commands [a; b; c; d; e] = Raise five_given.
Proof. reflexivity. Qed.

(** C4 at a forward and a reverse list of two files each, and at the same
    forward list with an empty reverse list: the invocation with the two
    lists, which is the one of lines 148-149, raises, and no command is
    returned for the two samples. *)
Lemma invocation_with_reverse_list_returns_no_commands :
  let fwd_seqs := ["/in/a_R1.fastq.gz"; "/in/b_R1.fastq.gz"] in
  let rev_seqs := ["/in/a_R2.fastq.gz"; "/in/b_R2.fastq.gz"] in
  let paired :=
    call__generate_commands
      [PyList fwd_seqs; PyList rev_seqs; PyStr "/databases/bed/artifacts_phix.bed";
       PyInt 2; PyStr "/out"] in
  let single_end :=
    call__generate_commands
      [PyList fwd_seqs; PyList []; PyStr "/databases/bed/artifacts_phix.bed";
       PyInt 2; PyStr "/out"] in
  fwd_seqs ≠ [] ∧ length rev_seqs = length fwd_seqs
  ∧ paired = Raise five_given ∧ single_end = Raise five_given
  ∧ ∀ commands out_files,
      paired ≠ Ret (commands, out_files) ∧ single_end ≠ Ret (commands, out_files).
Proof. repeat split; done. Qed.

(** C6 at a forward and a reverse list of two files each.  The invocation of
    lines 148-149 raises and returns no manifest.  The builder has four
    parameters, and a second list can only stand where the primer does: the
    manifest is then the two entries of the forward files with the role
    ["trimmed"]; it has no entry for a reverse file and is not grouped by
    role. *)
Lemma paired_manifest_is_not_grouped :
  let fwd_seqs := ["/in/a_R1.fastq.gz"; "/in/b_R1.fastq.gz"] in
  let rev_seqs := ["/in/a_R2.fastq.gz"; "/in/b_R2.fastq.gz"] in
  let manifest := [("/out/a_R1.fastq.gz", "trimmed"); ("/out/b_R1.fastq.gz", "trimmed")] in
  call__generate_commands
    [PyList fwd_seqs; PyList rev_seqs; PyStr "/databases/bed/artifacts_phix.bed";
     PyInt 2; PyStr "/out"]
  = Raise five_given
  ∧ call__generate_commands [PyList fwd_seqs; PyList rev_seqs; PyInt 2; PyStr "/out"]
    = Ret ([ "ivar trim -x 2 -e -b ['/in/a_R2.fastq.gz', '/in/b_R2.fastq.gz'] -i /in/a_R1.fastq.gz -p /out/a_R1.fastq.gz";
             "ivar trim -x 2 -e -b ['/in/a_R2.fastq.gz', '/in/b_R2.fastq.gz'] -i /in/b_R1.fastq.gz -p /out/b_R1.fastq.gz" ],
           manifest)
  ∧ ¬ grouped_by_role manifest
  ∧ length manifest ≠ (length fwd_seqs + length rev_seqs)%nat.
Proof.
  split; [reflexivity |]. split; [reflexivity |]. split; [| done].
  intros (fwd & rev & Heq & Hf & Hr).
  destruct fwd as [|e fwd].
  - simpl in Heq. subst rev. by inversion Hr.
  - injection Heq as <- _. by inversion Hf.
Qed.

(** C7 at an output directory with an empty name and at one named with a
    separator at its end: the path of the manifest entry is not [join] of
    the directory and the base name.  And at a forward and a reverse file:
    the invocation of lines 148-149 raises, and with the reverse list where
    the primer stands the manifest has the entry of the forward file and
    none for the reverse file. *)
Lemma manifest_path_is_not_the_join :
  _generate_commands (PyList ["/in/sz1.bam"]) (PyStr "primers.bed") (PyInt 2) (PyStr "")
  = Ret (["ivar trim -x 2 -e -b primers.bed -i /in/sz1.bam -p /sz1.bam"],
         [("/sz1.bam", "trimmed")])
  ∧ join "" (basename "/in/sz1.bam") = "sz1.bam"
  ∧ _generate_commands (PyList ["/in/sz1.bam"]) (PyStr "primers.bed") (PyInt 2) (PyStr "/out/")
    = Ret (["ivar trim -x 2 -e -b primers.bed -i /in/sz1.bam -p /out//sz1.bam"],
           [("/out//sz1.bam", "trimmed")])
  ∧ join "/out/" (basename "/in/sz1.bam") = "/out/sz1.bam"
  ∧ call__generate_commands
      [PyList ["/in/a_R1.fastq.gz"]; PyList ["/in/a_R2.fastq.gz"]; PyNone; PyInt 2; PyStr "/out"]
    = Raise five_given
  ∧ call__generate_commands
      [PyList ["/in/a_R1.fastq.gz"]; PyList ["/in/a_R2.fastq.gz"]; PyInt 2; PyStr "/out"]
    = Ret (["ivar trim -x 2 -e -b ['/in/a_R2.fastq.gz'] -i /in/a_R1.fastq.gz -p /out/a_R1.fastq.gz"],
           [("/out/a_R1.fastq.gz", "trimmed")]).
Proof. repeat split; reflexivity. Qed.

(** ** The builder and the lengths of its lists *)






(** ** The call of the builder in [fastp_minimap2_to_array] *)

(** A step that does not return ends the whole computation, in the state it
    was started in. *)
Lemma run_bind_pure_fail {S A B} (o : outcome A) (f : A → run S B) (s : S) :
  (∀ a, o ≠ Ret a) →
  ∃ o', (pure o ≫= f) s = (o', s) ∧ ∀ b, o' ≠ Ret b.
Proof.
  intros Ho. unfold mbind, run_bind, pure.
  destruct o as [a|e|]; [by destruct (Ho a) | by exists (Raise e) | by exists Unmodelled].
Qed.

Lemma dict_get_Some {V} (d : gmap string V) (k : string) (v : V) :
  d !! k = Some v → dict_get d k = Ret v.
Proof. unfold dict_get. by intros ->. Qed.

Lemma run_bind_pure_ret {S A B} (a : A) (f : A → run S B) (s : S) :
  (pure (Ret a) ≫= f) s = f a s.
Proof. reflexivity. Qed.

Ltac step_pure o x :=
  destruct o as [x| |] eqn:?;
  [ rewrite run_bind_pure_ret
  | apply run_bind_pure_fail; intros; discriminate
  | apply run_bind_pure_fail; intros; discriminate ].

(** Whatever its input, [fastp_minimap2_to_array] ends before line 151 and
    without returning: no file is opened for writing. *)
Lemma to_array_stops_before_writing (w : world) (files : gmap string (list string))
    (out_dir : string) (params : gmap string pyval) (prep_info url job_id : string)
    (fs : filesystem) :
  ∃ o, fastp_minimap2_to_array w files out_dir params prep_info url job_id fs = (o, fs)
       ∧ ∀ paths, o ≠ Ret paths.
Proof.
  unfold fastp_minimap2_to_array.
  step_pure (reference_database w params) database.
  step_pure (dict_get files "raw_forward_seqs") raw_forward_seqs.
  step_pure (read_csv_columns w prep_info) columns.
  step_pure (set_index_sample_name columns) df.
  destruct (negb _).
  { eexists. split; [reflexivity | done]. }
  step_pure (dict_get params "threads") threads.
  apply run_bind_pure_fail. intros r. by rewrite five_arguments_raise_eq.
Qed.

(** C2, as the code has it.  Whatever its input, the function ends without
    returning and leaves every file as it was; and when the reference
    resolves, [files] has the forward reads, the preparation has the columns
    [sample_name] and [run_prefix] and [params] has the thread count, it ends
    with the [TypeError] of the call of [_generate_commands]. *)
Theorem to_array_never_returns (w : world) (files : gmap string (list string))
    (out_dir : string) (params : gmap string pyval) (prep_info url job_id : string)
    (fs : filesystem) :
  (∃ o, fastp_minimap2_to_array w files out_dir params prep_info url job_id fs = (o, fs)
        ∧ ∀ paths, o ≠ Ret paths)
  ∧ ∀ database raw_forward_seqs columns threads,
      reference_database w params = Ret database →
      files !! "raw_forward_seqs" = Some raw_forward_seqs →
      read_csv_columns w prep_info = Ret columns →
      "sample_name" ∈ columns → "run_prefix" ∈ columns →
      params !! "threads" = Some threads →
      fastp_minimap2_to_array w files out_dir params prep_info url job_id fs
      = (Raise five_given, fs).
Proof.
  split; [apply to_array_stops_before_writing |].
  - intros database raw columns threads Hdb Hfwd Hcsv Hsample Hrun Hthreads.
    unfold fastp_minimap2_to_array.
    rewrite Hdb, run_bind_pure_ret.
    rewrite (dict_get_Some _ _ _ Hfwd), run_bind_pure_ret.
    rewrite Hcsv, run_bind_pure_ret.
    unfold set_index_sample_name. rewrite bool_decide_eq_true_2 by done.
    rewrite run_bind_pure_ret.
    rewrite bool_decide_eq_true_2.
    2:{ apply list_elem_of_In, filter_In. split; [by apply list_elem_of_In |].
        reflexivity. }
    cbn [negb]. rewrite (dict_get_Some _ _ _ Hthreads), run_bind_pure_ret.
    reflexivity.
Qed.

Lemma to_array_never_returns_witness :
  fastp_minimap2_to_array example_world example_files "/out" example_params
    "/in/prep.tsv" "https://localhost:21174" "job-1" ∅
  = (Raise five_given, ∅).
Proof.
  apply (proj2 (to_array_never_returns example_world example_files "/out" example_params
                  "/in/prep.tsv" "https://localhost:21174" "job-1" ∅)
           (PyStr "/databases/bed/artifacts_phix.bed")
           ["/in/S22282_R1.fastq.gz"; "/in/S22205_R1.fastq.gz"]
           ["sample_name"; "run_prefix"; "barcode"] (PyInt 2)).
  - reflexivity.
  - reflexivity.
  - reflexivity.
  - repeat constructor.
  - repeat constructor.
  - reflexivity.
Defined.

(** C2 at a [files] dictionary without forward reads: the reference resolves
    and the preparation has its columns, and the function raises a
    [KeyError] at line 133, before the call of the builder. *)
Lemma to_array_without_forward_reads :
  reference_database example_world example_params
  = Ret (PyStr "/databases/bed/artifacts_phix.bed")
  ∧ read_csv_columns example_world "/in/prep.tsv"
    = Ret ["sample_name"; "run_prefix"; "barcode"]
  ∧ fastp_minimap2_to_array example_world ∅ "/out" example_params
      "/in/prep.tsv" "https://localhost:21174" "job-1" ∅
    = (Raise (KeyError "raw_forward_seqs"), ∅).
Proof. repeat split; reflexivity. Qed.

(** ** The reference catalog *)

Lemma entry_ok_clean (n : string) : entry_ok n = true → has_char "/" n = false.
Proof. unfold entry_ok. by intros [_ ?%negb_true_iff]%andb_true_iff. Qed.

(** [get_dbs_list] returns the catalog: the base name of each path that
    [glob] returns is the directory entry itself. *)
Lemma get_dbs_list_catalog (w : world) :
  world_ok w → plain_reference_dir w → get_dbs_list w = Ret (catalog w).
Proof.
  intros Hw Hdir. unfold get_dbs_list, glob_bed. rewrite Hdir. simpl.
  f_equal. unfold catalog. rewrite <- list_fmap_compose.
  set (d := split_head _).
  rewrite <- (list_fmap_id (List.filter _ _)) at 2.
  apply list_fmap_ext. intros i n Hn. simpl.
  apply basename_join, entry_ok_clean, (Hw d).
  apply list_elem_of_lookup_2 in Hn.
  apply list_elem_of_In, filter_In in Hn as [Hn _]. by apply list_elem_of_In.
Qed.

(** The list comprehension keeps the entries that contain the reference
    name, in their order. *)
Lemma matching_dbs_filter (w : world) (params : gmap string pyval) (r : string)
    (dbs : list string) :
  params !! "reference" = Some (PyStr r) →
  matching_dbs w params dbs
  = Ret (map (join (QC_REFERENCE_DB w)) (List.filter (str_in r) dbs)).
Proof.
  intros Hr. induction dbs as [|db dbs IH]; [done |].
  cbn [matching_dbs]. rewrite (dict_get_Some _ _ _ Hr). simpl. rewrite IH. simpl.
  by destruct (str_in r db).
Qed.

(** C3, as the code has it: the lookup fails when no catalog entry contains
    the reference name, and otherwise returns the path of the first entry
    that contains it, whether or not other entries contain it too. *)
Theorem reference_is_first_match (w : world) (params : gmap string pyval) (r : string) :
  world_ok w → plain_reference_dir w →
  params !! "reference" = Some (PyStr r) → r ≠ "None" →
  reference_database w params
  = match List.filter (str_in r) (catalog w) with
    | [] => Raise IndexError
    | db :: _ => Ret (PyStr (join (QC_REFERENCE_DB w) db))
    end.
Proof.
  intros Hw Hdir Hr Hnone. unfold reference_database.
  rewrite (dict_get_Some _ _ _ Hr). simpl.
  apply String.eqb_neq in Hnone. rewrite Hnone. simpl.
  rewrite (get_dbs_list_catalog w Hw Hdir). simpl.
  rewrite (matching_dbs_filter w params r _ Hr). simpl.
  by destruct (List.filter (str_in r) (catalog w)).
Qed.

Lemma example_world_ok : world_ok example_world.
Proof.
  intros d n. simpl. destruct (String.eqb d "/databases/bed").
  - intros Hn. repeat (apply elem_of_cons in Hn as [-> | Hn]; [reflexivity |]).
    by apply elem_of_nil in Hn.
  - by intros ?%elem_of_nil.
Defined.

Lemma reference_is_first_match_witness :
  reference_database example_world example_params
  = Ret (PyStr "/databases/bed/artifacts_phix.bed").
Proof.
  apply (reference_is_first_match example_world example_params "phix").
  - exact example_world_ok.
  - reflexivity.
  - reflexivity.
  - discriminate.
Defined.

(** C3 at a reference name that two catalog entries contain: the lookup does
    not fail, it returns the path of the first of them. *)
Lemma ambiguous_reference_resolves :
  let params : gmap string pyval := <["reference" := PyStr "artifacts"]> example_params in
  List.filter (str_in "artifacts") (catalog example_world)
  = ["artifacts.bed"; "artifacts_phix.bed"]
  ∧ reference_database example_world params = Ret (PyStr "/databases/bed/artifacts.bed").
Proof. split; reflexivity. Qed.

(** C8 at a catalog directory that holds [human.bed]: the enumeration
    returns it with the others. *)
Theorem get_dbs_list_keeps_human :
  scandir example_world "/databases/bed"
  = ["artifacts.bed"; "artifacts_phix.bed"; "human.bed"; "README.txt"]
  ∧ get_dbs_list example_world = Ret ["artifacts.bed"; "artifacts_phix.bed"; "human.bed"].
Proof. split; reflexivity. Qed.

(** ** The paths of the job files *)

Lemma last_chr_append (a b : string) : b ≠ "" → last_chr (a +:+ b) = last_chr b.
Proof.
  intros Hb. induction a as [|c a IH]; [done |]. simpl.
  destruct (String.eqb_spec (a +:+ b) "") as [He | _]; [| done].
  destruct a; simpl in He; [done | discriminate].
Qed.

Lemma join_suffix (a b : string) : ∃ x, join a b = x +:+ b.
Proof.
  unfold join. destruct (startswith b "/"); [by exists "" |].
  destruct (_ || _); [by exists a |].
  exists (a +:+ "/"). by rewrite append_assoc.
Qed.

Lemma last_chr_join (a b : string) : b ≠ "" → last_chr (join a b) = last_chr b.
Proof. intros Hb. destruct (join_suffix a b) as [x ->]. by apply last_chr_append. Qed.

Lemma append_not_nil (a b : string) : b ≠ "" → a +:+ b ≠ "".
Proof. intros Hb. destruct a; [done | discriminate]. Qed.

(** Two joined names that end differently are different paths. *)
Lemma join_ne_last (d a b a' b' : string) :
  b ≠ "" → b' ≠ "" → last_chr b ≠ last_chr b' → join d (a +:+ b) ≠ join d (a' +:+ b').
Proof.
  intros Hb Hb' Hne Heq. apply (f_equal last_chr) in Heq.
  rewrite !last_chr_join, !last_chr_append in Heq by auto using append_not_nil.
  done.
Qed.

Lemma startswith_append (a b : string) (c d : ascii) :
  startswith (a +:+ String c b) "/" = startswith (a +:+ String d b) "/"
  ∨ a = "".
Proof. destruct a; [by right | by left]. Qed.

Lemma join_length (d b : string) :
  String.length (join d b)
  = (if startswith b "/" then 0
     else if String.eqb d "" || endswith d "/" then String.length d
     else S (String.length d)) + String.length b.
Proof.
  unfold join. destruct (startswith b "/"); [done |].
  destruct (_ || _); rewrite !append_length; simpl; lia.
Qed.

(** The two submission scripts have different paths. *)
Lemma qsub_ne_finish (d j : string) : join d (j +:+ ".qsub") ≠ join d (j +:+ ".finish.qsub").
Proof.
  intros Heq. apply (f_equal String.length) in Heq. rewrite !join_length in Heq.
  assert (startswith (j +:+ ".qsub") "/" = startswith (j +:+ ".finish.qsub") "/") as Hs
    by (by destruct j).
  rewrite Hs, !append_length in Heq. simpl in Heq. lia.
Qed.

(** ** The array job *)

Lemma lines_from_literal (cur c rest : string) :
  has_char "010" c = false → lines_from cur (c +:+ rest) = lines_from (cur +:+ c) rest.
Proof.
  revert cur. induction c as [|a c IH]; intros cur Hc.
  - by rewrite append_nil_r.
  - apply has_char_cons_false in Hc as [Ha Hc]. simpl. rewrite Ha, (IH _ Hc).
    by rewrite append_assoc.
Qed.

(** The details file has one line for each command. *)
Lemma text_lines_join (commands : list string) :
  Forall one_line commands → text_lines (str_join LF commands) = commands.
Proof.
  unfold text_lines. induction 1 as [|cmd commands [Hne Hlf] _ IH]; [done |].
  destruct commands as [|cmd' commands].
  - simpl. rewrite <- (append_nil_r cmd) at 1. rewrite lines_from_literal by done.
    simpl. unfold flush_word. by destruct (String.eqb_spec cmd "").
  - change (str_join LF (cmd :: cmd' :: commands))
      with (cmd +:+ LF +:+ str_join LF (cmd' :: commands)).
    rewrite lines_from_literal by done.
    change (LF +:+ str_join LF (cmd' :: commands))
      with (String "010" (str_join LF (cmd' :: commands))).
    cbn [lines_from]. change (chr_is "010" "010") with true. cbn iota.
    by rewrite IH.
Qed.

(** The task body picks the command of its own index. *)
Lemma head_tail_join (commands : list string) (step : nat) :
  Forall one_line commands → (1 ≤ step ≤ length commands)%nat →
  head_tail step (str_join LF commands) = commands !! (step - 1).
Proof.
  intros Hc Hstep. unfold head_tail. rewrite text_lines_join by done.
  rewrite last_lookup, length_take_le by lia.
  rewrite lookup_take_lt by lia. f_equal. lia.
Qed.

(** C9 at a run with two forward and two reverse files, a reference that
    resolves and a preparation that has its columns.  Lines 159-180 build
    the script with the directive of an array of as many tasks as commands,
    eight at a time, but they are never reached: the function raises at the
    call of lines 148-149, and neither the details file nor the script of
    the array job is written.  It is so for every input: the function does
    not return and leaves the files as they were. *)
Theorem array_job_script_is_never_written :
  let run :=
    fastp_minimap2_to_array example_world example_files "/out" example_params
      "/in/prep.tsv" "https://localhost:21174" "job-1" ∅ in
  run.1 = Raise five_given
  ∧ run.2 !! join "/out" "fastp_minimap2.array-details" = None
  ∧ run.2 !! join "/out" ("job-1" +:+ ".qsub") = None
  ∧ (∀ w files out_dir params prep_info url job_id fs,
       let run := fastp_minimap2_to_array w files out_dir params prep_info url job_id fs in
       run.2 = fs ∧ ∀ paths, run.1 ≠ Ret paths)
  ∧ ∀ job_id out_dir PPN environment details_name n_jobs,
      main_qsub_lines job_id out_dir PPN environment details_name n_jobs !! 8%nat
      = Some ("#PBS -t 1-" +:+ nat_str n_jobs +:+ "%8").
Proof.
  split; [reflexivity |]. split; [reflexivity |]. split; [reflexivity |].
  split; [| reflexivity].
  intros w files out_dir params prep_info url job_id fs.
  destruct (to_array_stops_before_writing w files out_dir params prep_info url job_id fs)
    as (o & Hrun & Ho).
  cbv zeta. by rewrite Hrun.
Qed.

(** ** The manifest file, written and read back *)

Lemma has_space_append (a b : string) : has_space (a +:+ b) = has_space a || has_space b.
Proof. induction a as [|c a IH]; simpl; [done |]. by rewrite IH, orb_assoc. Qed.

Lemma has_space_has_char (c : ascii) (s : string) :
  py_isspace c = true → has_space s = false → has_char c s = false.
Proof.
  intros Hc. induction s as [|d s IH]; simpl; [done |].
  intros [Hd Hs]%orb_false_elim. rewrite (IH Hs), orb_false_r.
  apply chr_is_false. by intros ->; congruence.
Qed.

Lemma flush_word_cons (w : string) (l : list string) : w ≠ "" → flush_word w l = w :: l.
Proof. intros Hw. unfold flush_word. by destruct (String.eqb_spec w ""). Qed.

Lemma split_from_literal (cur w rest : string) :
  has_space w = false → split_from cur (w +:+ rest) = split_from (cur +:+ w) rest.
Proof.
  revert cur. induction w as [|c w IH]; intros cur Hw.
  - by rewrite append_nil_r.
  - simpl in Hw. apply orb_false_elim in Hw as [Hc Hw].
    simpl. rewrite Hc, (IH _ Hw). by rewrite append_assoc.
Qed.

(** A manifest line splits into its path and its role, with or without the
    line feed at its end. *)
Lemma py_split_manifest_line (fp ft tail : string) :
  entry_readable (fp, ft) → tail = "" ∨ tail = LF →
  py_split ((fp +:+ TAB +:+ ft) +:+ tail) = [fp; ft].
Proof.
  intros (Hfp & Hft & Hsp & Hst) Htail. cbn [fst snd] in *. unfold py_split.
  rewrite !append_assoc, split_from_literal by done.
  change (split_from ("" +:+ fp) (TAB +:+ ft +:+ tail))
    with (flush_word fp (split_from "" (ft +:+ tail))).
  rewrite flush_word_cons, split_from_literal by done. f_equal.
  destruct Htail as [-> | ->]; simpl; by rewrite flush_word_cons.
Qed.

Lemma readlines_from_literal (cur l rest : string) :
  has_char "010" l = false → has_char "013" l = false →
  readlines_from cur (l +:+ rest) = readlines_from (cur +:+ l) rest.
Proof.
  revert cur. induction l as [|c l IH]; intros cur Hlf Hcr.
  - by rewrite append_nil_r.
  - apply has_char_cons_false in Hlf as [Hc Hlf].
    apply has_char_cons_false in Hcr as [Hc' Hcr].
    simpl. rewrite Hc, Hc', (IH _ Hlf Hcr). by rewrite append_assoc.
Qed.

(** Reading back lines that were joined by line feeds. *)
Lemma readlines_join (lines : list string) :
  Forall (λ l, l ≠ "" ∧ has_char "010" l = false ∧ has_char "013" l = false) lines →
  readlines (str_join LF lines) = terminated lines.
Proof.
  unfold readlines. induction 1 as [|l lines (Hne & Hlf & Hcr) _ IH]; [done |].
  destruct lines as [|l' lines].
  - simpl. rewrite <- (append_nil_r l) at 1. rewrite readlines_from_literal by done.
    simpl. by rewrite flush_word_cons.
  - change (str_join LF (l :: l' :: lines)) with (l +:+ LF +:+ str_join LF (l' :: lines)).
    rewrite readlines_from_literal by done.
    change (LF +:+ str_join LF (l' :: lines))
      with (String "010" (str_join LF (l' :: lines))).
    cbn [readlines_from]. change (chr_is "010" "010") with true. cbn iota.
    rewrite IH. reflexivity.
Qed.

Lemma manifest_line_ok (e : string * string) :
  entry_readable e →
  let l := e.1 +:+ TAB +:+ e.2 in
  l ≠ "" ∧ has_char "010" l = false ∧ has_char "013" l = false.
Proof.
  intros (Hfp & Hft & Hsp & Hst). cbv zeta. split; [| split].
  - destruct (e.1); [done | discriminate].
  - rewrite !has_char_append.
    rewrite (has_space_has_char "010" e.1), (has_space_has_char "010" e.2) by done.
    reflexivity.
  - rewrite !has_char_append.
    rewrite (has_space_has_char "013" e.1), (has_space_has_char "013" e.2) by done.
    reflexivity.
Qed.

(** The loop of lines 92-94 on the lines of a written manifest. *)
Lemma for_line_manifest (out_files acc : list (string * string)) :
  Forall entry_readable out_files →
  for_line (terminated (manifest_lines out_files)) acc = Ret (acc ++ out_files).
Proof.
  intros H. revert acc. induction H as [|[fp ft] out_files He _ IH]; intros acc.
  - simpl. by rewrite app_nil_r.
  - destruct out_files as [|e' out_files].
    + change (terminated (manifest_lines [(fp, ft)])) with [fp +:+ TAB +:+ ft].
      cbn [for_line]. rewrite <- (append_nil_r (fp +:+ TAB +:+ ft)).
      rewrite py_split_manifest_line by auto. reflexivity.
    + change (terminated (manifest_lines ((fp, ft) :: e' :: out_files)))
        with (((fp +:+ TAB +:+ ft) +:+ LF) :: terminated (manifest_lines (e' :: out_files))).
      cbn [for_line]. rewrite py_split_manifest_line by auto.
      simpl. rewrite IH. by rewrite <- app_assoc.
Qed.

(** Writing a manifest and reading it back. *)
Lemma manifest_text_round_trip (out_files : list (string * string)) :
  Forall entry_readable out_files →
  for_line (readlines (str_join LF (manifest_lines out_files))) [] = Ret out_files.
Proof.
  intros H. rewrite readlines_join.
  - by rewrite for_line_manifest.
  - unfold manifest_lines. apply Forall_fmap.
    eapply Forall_impl; [exact H |]. intros [fp ft] He. apply (manifest_line_ok _ He).
Qed.

(** C10 at a run with two forward and two reverse files, a reference that
    resolves and a preparation that has its columns.  The function
    [fastp_minimap2_to_array] raises at the call of lines 148-149, before the
    manifest file is written, and [fastp_minimap2], run on the files that it
    leaves, finds no manifest file: it raises [FileNotFoundError] after the
    first step update and returns no artifact.  It is so for every input and
    every host: unless a manifest file was there before, [fastp_minimap2]
    after [fastp_minimap2_to_array] ends with the failure of the first step
    update or with that [FileNotFoundError], the files unchanged. *)
Theorem manifest_is_never_written :
  let written :=
    fastp_minimap2_to_array example_world example_files "/out" example_params
      "/in/prep.tsv" "https://localhost:21174" "job-1" ∅ in
  written = (Raise five_given, ∅)
  ∧ fastp_minimap2 "job-1" example_params "/out" (written.2, [])
    = (Raise (FileNotFoundError "/out/job-1.out_files.tsv"),
       (∅, [("job-1", "Step 3 of 4: Finishing fastp and minimap2")]))
  ∧ ∀ (host : Type) (qclient : QiitaClient host) (h : host) w files out_dir params
      parameters prep_info url job_id fs,
      let out_files_fp := out_dir +:+ "/" +:+ job_id +:+ ".out_files.tsv" in
      let written := fastp_minimap2_to_array w files out_dir params prep_info url job_id fs in
      let step3 := update_job_step job_id "Step 3 of 4: Finishing fastp and minimap2" h in
      fs !! out_files_fp = None →
      fastp_minimap2 job_id parameters out_dir (written.2, h)
      = (step3.1 ≫= (λ _, Raise (FileNotFoundError out_files_fp)), (fs, step3.2)).
Proof.
  split; [reflexivity |]. split; [reflexivity |].
  intros host qclient h w files out_dir params parameters prep_info url job_id fs.
  destruct (to_array_stops_before_writing w files out_dir params prep_info url job_id fs)
    as (o & Hrun & _).
  cbv zeta. rewrite Hrun. cbn [snd]. intros Hfile.
  unfold fastp_minimap2, qclient_update_job_step, read_lines.
  unfold mbind, run_bind. cbn [fst snd].
  destruct (update_job_step job_id _ h) as [[[]| |] h3]; cbn [fst snd]; [| done..].
  by rewrite Hfile.
Qed.

Lemma manifest_is_never_written_witness :
  fastp_minimap2 "job-1" example_params "/out"
    ((fastp_minimap2_to_array example_world example_files "/out" example_params
        "/in/prep.tsv" "https://localhost:21174" "job-1" ∅).2, [])
  = (Raise (FileNotFoundError "/out/job-1.out_files.tsv"),
     (∅, [("job-1", "Step 3 of 4: Finishing fastp and minimap2")])).
Proof.
  exact (proj2 (proj2 manifest_is_never_written) _ recording_host []
           example_world example_files "/out" example_params example_params
           "/in/prep.tsv" "https://localhost:21174" "job-1" ∅ eq_refl).
Defined.

(** * Further properties of the code *)

(** ** The catalog and the reference lookup (lines 40-44 and 127-131) *)

(** X1: the enumeration returns the bare names of the entries of the
    reference directory that are not hidden and end with [.bed], in the
    order of the listing, and nothing else. *)
Theorem get_dbs_list_lists_bed_entries (w : world) :
  world_ok w → plain_reference_dir w →
  let listing := scandir w (split_head (QC_REFERENCE_DB w +:+ "/*.bed")) in
  ∃ dbs, get_dbs_list w = Ret dbs
    ∧ dbs = List.filter matches_bed listing
    ∧ ∀ n, n ∈ dbs ↔ n ∈ listing ∧ startswith n "." = false ∧ endswith n ".bed" = true.
Proof.
  intros Hw Hdir listing. exists (catalog w).
  split; [by apply get_dbs_list_catalog |]. split; [done |].
  intros n. unfold catalog. fold listing.
  rewrite list_elem_of_In, filter_In, <- list_elem_of_In. unfold matches_bed.
  rewrite andb_true_iff, negb_true_iff. tauto.
Qed.

Lemma get_dbs_list_lists_bed_entries_witness :
  ∃ dbs, get_dbs_list example_world = Ret dbs
    ∧ dbs = List.filter matches_bed (scandir example_world "/databases/bed")
    ∧ ∀ n, n ∈ dbs ↔ n ∈ scandir example_world "/databases/bed"
                     ∧ startswith n "." = false ∧ endswith n ".bed" = true.
Proof.
  apply (get_dbs_list_lists_bed_entries example_world).
  - exact example_world_ok.
  - reflexivity.
Defined.

(** X2: the lookup yields no database exactly when the reference is the
    text ['None']; every other reference is looked up in the catalog and
    yields a path or fails. *)
Theorem reference_none_iff (w : world) (params : gmap string pyval) :
  reference_database w params = Ret PyNone ↔ params !! "reference" = Some (PyStr "None").
Proof.
  unfold reference_database, dict_get. split.
  - destruct (params !! "reference") as [v|]; [| done]. simpl.
    destruct (py_ne_str v "None") eqn:Hv.
    + destruct (get_dbs_list w) as [dbs| |]; simpl; try done.
      destruct (matching_dbs w params dbs) as [[|hit hits]| |]; simpl; done.
    + intros _. destruct v as [| |t|]; try done. simpl in Hv.
      apply negb_false_iff, String.eqb_eq in Hv. by subst.
  - intros ->. reflexivity.
Qed.

(** X3: a reference that is not a text, such as the value [None] instead of
    the text ['None'], does not switch the lookup off: with a catalog that
    has an entry the membership test raises a [TypeError], and with an empty
    catalog the indexing raises an [IndexError]. *)
Theorem reference_not_a_text (w : world) (params : gmap string pyval) (v : pyval)
    (dbs : list string) :
  params !! "reference" = Some v → (∀ r, v ≠ PyStr r) →
  get_dbs_list w = Ret dbs →
  reference_database w params
  = match dbs with
    | [] => Raise IndexError
    | _ :: _ => Raise (TypeError ("'in <string>' requires string as left operand, not "
                                  +:+ py_type_name v))
    end.
Proof.
  intros Hv Hnot Hdbs. unfold reference_database.
  rewrite (dict_get_Some _ _ _ Hv). cbn [mbind outcome_bind].
  assert (py_ne_str v "None" = true) as -> by (destruct v; [done..| by destruct (Hnot s) |done]).
  rewrite Hdbs. cbn [mbind outcome_bind].
  destruct dbs as [|db dbs]; [done |].
  cbn [matching_dbs]. rewrite (dict_get_Some _ _ _ Hv). cbn [mbind outcome_bind].
  destruct v; try done. by destruct (Hnot s).
Qed.

Lemma reference_not_a_text_witness :
  reference_database example_world (<["reference" := PyNone]> example_params)
  = Raise (TypeError "'in <string>' requires string as left operand, not NoneType").
Proof.
  apply (reference_not_a_text example_world (<["reference" := PyNone]> example_params)
           PyNone ["artifacts.bed"; "artifacts_phix.bed"; "human.bed"]).
  - reflexivity.
  - discriminate.
  - reflexivity.
Defined.

Lemma prefix_refl (s : string) : String.prefix s s = true.
Proof. induction s as [|c s IH]; simpl; [done |]. by destruct (ascii_dec c c). Qed.

Lemma str_in_refl (s : string) : str_in s s = true.
Proof. destruct s; [done |]. cbn [str_in]. by rewrite prefix_refl. Qed.

Lemma str_in_empty (s : string) : str_in "" s = true.
Proof. by destruct s. Qed.

(** The lookup in a catalog that the enumeration returns in full. *)
Lemma reference_database_filter (w : world) (params : gmap string pyval) (r : string) :
  world_ok w → plain_reference_dir w →
  params !! "reference" = Some (PyStr r) → r ≠ "None" →
  reference_database w params
  = match List.filter (str_in r) (catalog w) with
    | [] => Raise IndexError
    | db :: _ => Ret (PyStr (join (QC_REFERENCE_DB w) db))
    end.
Proof.
  intros Hw Hdir Hr Hnone. unfold reference_database.
  rewrite (dict_get_Some _ _ _ Hr). simpl.
  apply String.eqb_neq in Hnone. rewrite Hnone. simpl.
  rewrite (get_dbs_list_catalog w Hw Hdir). simpl.
  rewrite (matching_dbs_filter w params r _ Hr). simpl.
  by destruct (List.filter (str_in r) (catalog w)).
Qed.

(** X4: the empty reference name is contained in every entry, so it
    resolves to the first entry of a catalog that has one. *)
Theorem empty_reference_is_first_entry (w : world) (params : gmap string pyval)
    (db : string) (dbs : list string) :
  world_ok w → plain_reference_dir w →
  params !! "reference" = Some (PyStr "") → catalog w = db :: dbs →
  reference_database w params = Ret (PyStr (join (QC_REFERENCE_DB w) db)).
Proof.
  intros Hw Hdir Hr Hcat.
  rewrite (reference_database_filter w params "") by done.
  rewrite Hcat. simpl. by rewrite str_in_empty.
Qed.

Lemma empty_reference_is_first_entry_witness :
  reference_database example_world (<["reference" := PyStr ""]> example_params)
  = Ret (PyStr "/databases/bed/artifacts.bed").
Proof.
  apply (empty_reference_is_first_entry example_world
           (<["reference" := PyStr ""]> example_params)
           "artifacts.bed" ["artifacts_phix.bed"; "human.bed"]).
  - exact example_world_ok.
  - reflexivity.
  - reflexivity.
  - reflexivity.
Defined.

(** X5: the exact name of a catalog entry always resolves, to the path of a
    catalog entry that contains the name and is the base name of that path;
    it resolves to the entry itself when no entry before it contains the
    name. *)
Theorem entry_name_resolves (w : world) (params : gmap string pyval) (r : string) :
  world_ok w → plain_reference_dir w →
  params !! "reference" = Some (PyStr r) → r ≠ "None" → r ∈ catalog w →
  ∃ db, reference_database w params = Ret (PyStr (join (QC_REFERENCE_DB w) db))
    ∧ db ∈ catalog w ∧ str_in r db = true
    ∧ basename (join (QC_REFERENCE_DB w) db) = db
    ∧ (∀ before after, catalog w = before ++ r :: after →
         Forall (λ n, str_in r n = false) before → db = r).
Proof.
  intros Hw Hdir Hr Hnone Hin.
  rewrite (reference_database_filter w params r) by done.
  destruct (List.filter (str_in r) (catalog w)) as [|db hits] eqn:Hf.
  - exfalso. assert (r ∈ List.filter (str_in r) (catalog w)) as Hrf.
    { apply list_elem_of_In, filter_In. split; [by apply list_elem_of_In |].
      apply str_in_refl. }
    rewrite Hf in Hrf. by apply elem_of_nil in Hrf.
  - exists db. split; [done |].
    assert (db ∈ List.filter (str_in r) (catalog w)) as Hdb by (rewrite Hf; left).
    apply list_elem_of_In, filter_In in Hdb as [Hdb Hmatch].
    apply list_elem_of_In in Hdb.
    split; [done |]. split; [done |]. split.
    + apply basename_join, entry_ok_clean.
      unfold catalog in Hdb. apply list_elem_of_In, filter_In in Hdb as [Hdb _].
      eapply Hw. apply list_elem_of_In, Hdb.
    + intros before after Hcat Hbefore. rewrite Hcat in Hf.
      rewrite List.filter_app in Hf.
      replace (List.filter (str_in r) before) with (@nil string) in Hf.
      * simpl in Hf. rewrite str_in_refl in Hf. by injection Hf as <- _.
      * clear -Hbefore. induction Hbefore as [|n before Hn _ IH]; [done |].
        simpl. by rewrite Hn.
Qed.

Lemma entry_name_resolves_witness :
  ∃ db, reference_database example_world
          (<["reference" := PyStr "human.bed"]> example_params)
        = Ret (PyStr (join "/databases/bed" db))
    ∧ db ∈ catalog example_world ∧ str_in "human.bed" db = true
    ∧ basename (join "/databases/bed" db) = db
    ∧ (∀ before after, catalog example_world = before ++ "human.bed" :: after →
         Forall (λ n, str_in "human.bed" n = false) before → db = "human.bed").
Proof.
  apply (entry_name_resolves example_world
           (<["reference" := PyStr "human.bed"]> example_params) "human.bed").
  - exact example_world_ok.
  - reflexivity.
  - reflexivity.
  - discriminate.
  - repeat constructor.
Defined.

(** ** The checks of [fastp_minimap2_to_array] before the builder (lines 133-143) *)

(** X6: when the reference resolves, [files] has the forward reads and the
    preparation has a column [sample_name] but no column [run_prefix], the
    function raises the [ValueError] of line 143 and has written nothing. *)
Theorem missing_run_prefix_is_reported (w : world) (files : gmap string (list string))
    (out_dir : string) (params : gmap string pyval) (prep_info url job_id : string)
    (fs : filesystem) (database : pyval) (raw_forward_seqs columns : list string) :
  reference_database w params = Ret database →
  files !! "raw_forward_seqs" = Some raw_forward_seqs →
  read_csv_columns w prep_info = Ret columns →
  "sample_name" ∈ columns → "run_prefix" ∉ columns →
  fastp_minimap2_to_array w files out_dir params prep_info url job_id fs
  = (Raise (ValueError "Missing run_prefix column in your preparation"), fs).
Proof.
  intros Hdb Hfwd Hcsv Hsample Hrun. unfold fastp_minimap2_to_array.
  rewrite Hdb, run_bind_pure_ret.
  rewrite (dict_get_Some _ _ _ Hfwd), run_bind_pure_ret.
  rewrite Hcsv, run_bind_pure_ret.
  unfold set_index_sample_name. rewrite bool_decide_eq_true_2 by done.
  rewrite run_bind_pure_ret.
  rewrite bool_decide_eq_false_2; [reflexivity |].
  intros Hin. apply Hrun.
  apply list_elem_of_In, filter_In in Hin as [Hin _]. by apply list_elem_of_In.
Qed.

Lemma missing_run_prefix_is_reported_witness :
  fastp_minimap2_to_array
    {| QC_REFERENCE_DB := "/databases/bed";
       scandir := scandir example_world;
       read_csv_columns := λ _, Ret ["sample_name"; "barcode"];
       os_write := os_write example_world |}
    example_files "/out" example_params "/in/prep.tsv" "https://localhost:21174" "job-1" ∅
  = (Raise (ValueError "Missing run_prefix column in your preparation"), ∅).
Proof.
  apply (missing_run_prefix_is_reported _ example_files "/out" example_params
           "/in/prep.tsv" "https://localhost:21174" "job-1" ∅
           (PyStr "/databases/bed/artifacts_phix.bed")
           ["/in/S22282_R1.fastq.gz"; "/in/S22205_R1.fastq.gz"]
           ["sample_name"; "barcode"]).
  - reflexivity.
  - reflexivity.
  - reflexivity.
  - repeat constructor.
  - intros H. repeat (apply elem_of_cons in H as [H | H]; [discriminate H |]).
    by apply elem_of_nil in H.
Defined.

(** ** The files that lines 151-213 write *)

(** X7: the details file, the two scripts and the manifest file have four
    different paths, whatever the output directory and the job id: no write
    of lines 151-213 replaces an earlier one. *)
Theorem job_files_are_distinct (out_dir job_id : string) :
  NoDup [ join out_dir "fastp_minimap2.array-details";
          join out_dir (job_id +:+ ".qsub");
          join out_dir (job_id +:+ ".finish.qsub");
          join out_dir (job_id +:+ ".out_files.tsv") ].
Proof.
  repeat apply NoDup_cons_2; [| | | | apply NoDup_nil_2];
    rewrite ?elem_of_cons, ?elem_of_nil.
  - intros [H | [H | [H | []]]]; revert H.
    + apply not_eq_sym,
        (join_ne_last out_dir job_id ".qsub" "" "fastp_minimap2.array-details"); done.
    + apply not_eq_sym,
        (join_ne_last out_dir job_id ".finish.qsub" "" "fastp_minimap2.array-details"); done.
    + apply not_eq_sym,
        (join_ne_last out_dir job_id ".out_files.tsv" "" "fastp_minimap2.array-details");
        done.
  - intros [H | [H | []]]; revert H.
    + apply qsub_ne_finish.
    + apply not_eq_sym, (join_ne_last out_dir job_id ".out_files.tsv" job_id ".qsub"); done.
  - intros [H | []]; revert H.
    apply not_eq_sym, (join_ne_last out_dir job_id ".out_files.tsv" job_id ".finish.qsub");
      done.
  - intros [].
Qed.

(** ** More on what [_generate_commands] returns (lines 47-61) *)

(** X10: whatever it is given, a call of the builder that returns has
    visited the items of [bam_file] and returns as many commands as manifest
    entries, one of each for every item. *)
Theorem commands_and_manifest_are_aligned (bam_file primer nprocs out_dir : pyval)
    (commands : list string) (out_files : list (string * string)) :
  _generate_commands bam_file primer nprocs out_dir = Ret (commands, out_files) →
  length commands = length out_files
  ∧ ∃ bams, py_iter bam_file = Ret bams ∧ length commands = length bams.
Proof.
  intros (bams & o & Hiter & _ & Hlen & ->)%generate_commands_inv.
  split; [by rewrite length_map | by exists bams].
Qed.

Lemma commands_and_manifest_are_aligned_witness :
  length ["ivar trim -x 2 -e -b primers.bed -i a -p /out/a";
          "ivar trim -x 2 -e -b primers.bed -i b -p /out/b"]
  = length [("/out/a", "trimmed"); ("/out/b", "trimmed")]
  ∧ ∃ bams, py_iter (PyStr "ab") = Ret bams
      ∧ length ["ivar trim -x 2 -e -b primers.bed -i a -p /out/a";
                "ivar trim -x 2 -e -b primers.bed -i b -p /out/b"] = length bams.
Proof.
  apply (commands_and_manifest_are_aligned
           (PyStr "ab") (PyStr "primers.bed") (PyInt 2) (PyStr "/out")).
  reflexivity.
Defined.

(** X11: the output path of an input file keeps the base name of that file,
    so two input files get the same output path exactly when they have the
    same base name: the paths of the manifest are pairwise different if and
    only if the base names of the input files are. *)
Theorem output_paths_collide_with_basenames (bam_file : list string)
    (primer nprocs out_dir : pyval)
    (commands : list string) (out_files : list (string * string)) :
  _generate_commands (PyList bam_file) primer nprocs out_dir = Ret (commands, out_files) →
  Forall2 (λ bam e, basename e.1 = basename bam) bam_file out_files
  ∧ (NoDup out_files.*1 ↔ NoDup (basename <$> bam_file)).
Proof.
  intros (bams & o & [= <-] & _ & _ & ->)%generate_commands_inv. split.
  - apply Forall2_fmap_r, Forall_Forall2_diag, Forall_forall. intros bam _. simpl.
    apply basename_from_slash, basename_clean.
  - transitivity (NoDup ((λ b, o +:+ "/" +:+ b) <$> (basename <$> bam_file))).
    { by rewrite <- !list_fmap_compose. }
    apply NoDup_fmap. intros x y Hxy.
    by apply (inj (String.append "/")), (inj (String.append o)).
Qed.

Lemma output_paths_collide_with_basenames_witness :
  Forall2 (λ bam e, basename e.1 = basename bam)
    ["/run1/s1.bam"; "/run2/s1.bam"] [("/out/s1.bam", "trimmed"); ("/out/s1.bam", "trimmed")]
  ∧ (NoDup [("/out/s1.bam", "trimmed"); ("/out/s1.bam", "trimmed")].*1
     ↔ NoDup (basename <$> ["/run1/s1.bam"; "/run2/s1.bam"])).
Proof.
  apply (output_paths_collide_with_basenames ["/run1/s1.bam"; "/run2/s1.bam"]
           (PyStr "primers.bed") (PyInt 2) (PyStr "/out")
           [ "ivar trim -x 2 -e -b primers.bed -i /run1/s1.bam -p /out/s1.bam";
             "ivar trim -x 2 -e -b primers.bed -i /run2/s1.bam -p /out/s1.bam" ]).
  reflexivity.
Defined.

(** X12: with no input file the builder looks at no command line: it
    returns two empty lists as soon as its three texts can be written into
    the template, percent signs or not. *)
Theorem no_files_no_commands (primer nprocs out_dir : pyval) (p n o : string) :
  py_str primer = Ret p → py_str nprocs = Ret n → py_str out_dir = Ret o →
  _generate_commands (PyList []) primer nprocs out_dir = Ret ([], []).
Proof.
  intros Hp Hn Ho. unfold _generate_commands.
  rewrite (format_IVAR_TRIM_CMD _ _ _ p n o) by done.
  cbn [mbind outcome_bind py_iter]. rewrite Ho. reflexivity.
Qed.

Lemma no_files_no_commands_witness :
  _generate_commands (PyList []) (PyStr "100%.bed") (PyInt 2) (PyStr "/out/%d") = Ret ([], []).
Proof.
  apply (no_files_no_commands (PyStr "100%.bed") (PyInt 2) (PyStr "/out/%d")
           "100%.bed" "2" "/out/%d"); reflexivity.
Defined.

(** A command line with three [%s] is one argument short. *)
Lemma py_mod_three (pre mid1 mid2 a b : string) :
  has_char "%" pre = false → has_char "%" mid1 = false → has_char "%" mid2 = false →
  py_mod (pre +:+ "%s" +:+ mid1 +:+ "%s" +:+ mid2 +:+ "%s") [a; b]
  = Raise (TypeError "not enough arguments for format string").
Proof.
  intros Hpre Hmid1 Hmid2.
  rewrite (py_mod_literal pre) by done. rewrite py_mod_s.
  rewrite (py_mod_literal mid1) by done. rewrite py_mod_s.
  rewrite (py_mod_literal mid2) by done. reflexivity.
Qed.

(** X13: a primer path that holds a [%s] between texts without percent sign
    gives the command line a third directive, and the builder raises a
    [TypeError] at the first input file. *)
Theorem directive_in_primer_raises (bam_file : list string) (primer nprocs out_dir : pyval)
    (a b n o : string) :
  py_str primer = Ret (a +:+ "%s" +:+ b) →
  has_char "%" a = false → has_char "%" b = false →
  plain_text nprocs n → plain_text out_dir o → bam_file ≠ [] →
  _generate_commands (PyList bam_file) primer nprocs out_dir
  = Raise (TypeError "not enough arguments for format string").
Proof.
  intros Hp Ha Hb [Hn Hn'] [Ho Ho'] Hne. unfold _generate_commands.
  rewrite (format_IVAR_TRIM_CMD _ _ _ (a +:+ "%s" +:+ b) n o) by done.
  cbn [mbind outcome_bind py_iter]. rewrite Ho. cbn [mbind outcome_bind].
  destruct bam_file as [|bam bams]; [done |]. cbn [for_bam].
  pose (pre := "ivar trim -x " +:+ n +:+ " -e -b " +:+ a).
  pose (mid1 := b +:+ " -i ").
  pose (mid2 := " -p " +:+ o +:+ "/").
  assert (Hpre : has_char "%" pre = false).
  { unfold pre. rewrite !has_char_append, Hn', Ha. reflexivity. }
  assert (Hmid1 : has_char "%" mid1 = false).
  { unfold mid1. rewrite !has_char_append, Hb. reflexivity. }
  assert (Hmid2 : has_char "%" mid2 = false).
  { unfold mid2. rewrite !has_char_append, Ho'. reflexivity. }
  pose proof (py_mod_three pre mid1 mid2 bam (basename bam) Hpre Hmid1 Hmid2) as H.
  unfold pre, mid1, mid2 in H. rewrite !append_assoc in H. simpl in H.
  rewrite !append_assoc. simpl. rewrite H. reflexivity.
Qed.

Lemma directive_in_primer_raises_witness :
  _generate_commands (PyList ["/in/sz1.bam"]) (PyStr "/primers/%s.bed") (PyInt 2) (PyStr "/out")
  = Raise (TypeError "not enough arguments for format string").
Proof.
  apply (directive_in_primer_raises ["/in/sz1.bam"] (PyStr "/primers/%s.bed") (PyInt 2)
           (PyStr "/out") "/primers/" ".bed" "2" "/out");
    first [reflexivity | discriminate | split; reflexivity].
Defined.

(** ** From the builder to the array task *)

Lemma has_char_basename_from (c : ascii) (cur p : string) :
  has_char c cur = false → has_char c p = false → has_char c (basename_from cur p) = false.
Proof.
  revert cur. induction p as [|d p IH]; intros cur Hcur Hp; simpl; [done |].
  apply has_char_cons_false in Hp as [_ Hp].
  destruct (chr_is d "/"); by apply IH.
Qed.

Lemma has_char_basename (c : ascii) (p : string) :
  has_char c p = false → has_char c (basename p) = false.
Proof. intros Hp. by apply has_char_basename_from. Qed.

(** X14: when the texts of the parameters and the input paths have no
    percent sign where it matters and no line feed, the line that the task
    body of index [k + 1] takes from a details file holding the builder's
    commands is the command of the input file of index [k]. *)
Theorem task_runs_the_command_of_its_file (bam_file : list string)
    (primer nprocs out_dir : pyval) (p n o bam : string) (k : nat) :
  plain_text primer p → plain_text nprocs n → plain_text out_dir o →
  has_char "010" p = false → has_char "010" n = false → has_char "010" o = false →
  Forall (λ bam, has_char "010" bam = false) bam_file →
  bam_file !! k = Some bam →
  ∃ commands out_files,
    _generate_commands (PyList bam_file) primer nprocs out_dir = Ret (commands, out_files)
    ∧ head_tail (S k) (str_join LF commands) = Some (ivar_command n p o bam).
Proof.
  intros Hp Hn Ho Hpl Hnl Hol Hbams Hk. eexists _, _.
  split; [by apply generate_commands_plain |].
  rewrite head_tail_join.
  - replace (S k - 1)%nat with k by lia. by rewrite list_lookup_fmap, Hk.
  - apply Forall_fmap. eapply Forall_impl; [exact Hbams |].
    intros b Hb. split; [done |]. unfold ivar_command.
    rewrite !has_char_append, Hpl, Hnl, Hol, Hb, (has_char_basename _ _ Hb). reflexivity.
  - rewrite length_map. apply lookup_lt_Some in Hk. lia.
Qed.

Lemma task_runs_the_command_of_its_file_witness :
  ∃ commands out_files,
    _generate_commands (PyList ["/in/sz1.bam"; "/in/sc1.bam"])
      (PyStr "primers.bed") (PyInt 2) (PyStr "/out") = Ret (commands, out_files)
    ∧ head_tail 2 (str_join LF commands)
      = Some (ivar_command "2" "primers.bed" "/out" "/in/sc1.bam").
Proof.
  apply (task_runs_the_command_of_its_file ["/in/sz1.bam"; "/in/sc1.bam"]
           (PyStr "primers.bed") (PyInt 2) (PyStr "/out")
           "primers.bed" "2" "/out" "/in/sc1.bam" 1);
    first [reflexivity | split; reflexivity | repeat constructor].
Defined.

(** ** Reading the manifest in [fastp_minimap2] (lines 84-101) *)

Lemma for_line_acc (lines : list string) (acc out : list (string * string)) :
  for_line lines acc = Ret out
  ↔ ∃ out', out = acc ++ out' ∧ Forall2 (λ line e, py_split line = [e.1; e.2]) lines out'.
Proof.
  revert acc out. induction lines as [|line lines IH]; intros acc out; cbn [for_line].
  - split.
    + intros [= <-]. exists []. by rewrite app_nil_r.
    + intros (out' & -> & ->%Forall2_nil_inv_l). by rewrite app_nil_r.
  - split.
    + destruct (py_split line) as [|fp [|ft [|x l]]] eqn:Hs; simpl; try done.
      intros (out' & -> & Hrest)%IH. exists ((fp, ft) :: out').
      split; [by rewrite <- app_assoc |]. by constructor.
    + intros (out' & -> & Hall). apply Forall2_cons_inv_l in Hall as ([fp ft] & out'' & Hs & Hall & ->).
      simpl in Hs. rewrite Hs. simpl. apply IH. exists out''.
      split; [by rewrite <- app_assoc | done].
Qed.

(** X15: the loop of lines 92-94 returns a list of entries exactly when
    every line of the file splits at whitespace into two words, and the
    entries are these pairs of words, line by line; a line of any other
    shape makes it raise. *)
Theorem for_line_two_words (lines : list string) (out : list (string * string)) :
  for_line lines [] = Ret out
  ↔ Forall2 (λ line e, py_split line = [e.1; e.2]) lines out.
Proof.
  rewrite for_line_acc. split.
  - by intros (out' & -> & H).
  - intros H. by exists out.
Qed.

(** X16: when the manifest file of the job is missing and the host accepts
    the first step update, [fastp_minimap2] raises [FileNotFoundError] for
    the path it reads; the host has then seen step 3 and not step 4. *)
Theorem missing_manifest_file `{QiitaClient host} (job_id : string)
    (parameters : gmap string pyval) (out_dir : string) (fs : filesystem) (h h3 : host) :
  fs !! (out_dir +:+ "/" +:+ job_id +:+ ".out_files.tsv") = None →
  update_job_step job_id "Step 3 of 4: Finishing fastp and minimap2" h = (Ret (), h3) →
  fastp_minimap2 job_id parameters out_dir (fs, h)
  = (Raise (FileNotFoundError (out_dir +:+ "/" +:+ job_id +:+ ".out_files.tsv")), (fs, h3)).
Proof.
  intros Hfile Hstep.
  unfold fastp_minimap2, qclient_update_job_step, read_lines.
  unfold mbind, run_bind. cbn [fst snd]. rewrite Hstep. cbn [fst snd].
  by rewrite Hfile.
Qed.

Lemma missing_manifest_file_witness :
  fastp_minimap2 "job-1" example_params "/out" (∅, [])
  = (Raise (FileNotFoundError "/out/job-1.out_files.tsv"),
     (∅, [("job-1", "Step 3 of 4: Finishing fastp and minimap2")])).
Proof.
  apply (missing_manifest_file "job-1" example_params "/out" ∅ []
           [("job-1", "Step 3 of 4: Finishing fastp and minimap2")]); reflexivity.
Defined.

(** X17: a call of [fastp_minimap2] that returns has changed no file, has
    found the manifest file of the job and read an entry from every line of
    it, and returns the flag [True], an empty message and one artifact
    ['Filtered files'] of type ['per_sample_FASTQ'] with these entries. *)
Theorem fastp_minimap2_returns `{QiitaClient host} (job_id : string)
    (parameters : gmap string pyval) (out_dir : string) (s s' : filesystem * host)
    (r : bool * list ArtifactInfo * string) :
  fastp_minimap2 job_id parameters out_dir s = (Ret r, s') →
  s'.1 = s.1
  ∧ ∃ text out_files,
      s.1 !! (out_dir +:+ "/" +:+ job_id +:+ ".out_files.tsv") = Some text
      ∧ for_line (readlines text) [] = Ret out_files
      ∧ r = (true,
             [ {| output_name := "Filtered files";
                  artifact_type := "per_sample_FASTQ";
                  artifact_files := out_files |} ],
             "").
Proof.
  unfold fastp_minimap2, qclient_update_job_step, read_lines.
  unfold mbind, run_bind, pure, mret, run_ret. cbn [fst snd].
  destruct (update_job_step job_id _ s.2) as [[[]| |] h3]; [| intros [=]..].
  cbn [fst snd].
  destruct (s.1 !! _) as [text|]; [| intros [=]].
  destruct (for_line (readlines text) []) as [out_files| |] eqn:Hread; [| intros [=]..].
  cbn [fst snd].
  destruct (update_job_step job_id "Step 4 of 4: Generating new artifact" h3)
    as [[[]| |] h4]; [| intros [=]..].
  intros [= <- <-]. split; [done |]. by exists text, out_files.
Qed.

Lemma fastp_minimap2_returns_witness :
  let fs : filesystem := {[ "/out/job-1.out_files.tsv" := "/out/a.bam" +:+ TAB +:+ "trimmed" ]} in
  fs = fs
  ∧ ∃ text out_files,
      fs !! ("/out" +:+ "/" +:+ "job-1" +:+ ".out_files.tsv") = Some text
      ∧ for_line (readlines text) [] = Ret out_files
      ∧ (true,
         [ {| output_name := "Filtered files";
              artifact_type := "per_sample_FASTQ";
              artifact_files := [("/out/a.bam", "trimmed")] |} ],
         "")
        = (true,
           [ {| output_name := "Filtered files";
                artifact_type := "per_sample_FASTQ";
                artifact_files := out_files |} ],
           "").
Proof.
  exact (fastp_minimap2_returns "job-1" example_params "/out"
           ({[ "/out/job-1.out_files.tsv" := "/out/a.bam" +:+ TAB +:+ "trimmed" ]}, [])
           ({[ "/out/job-1.out_files.tsv" := "/out/a.bam" +:+ TAB +:+ "trimmed" ]},
            [("job-1", "Step 3 of 4: Finishing fastp and minimap2");
             ("job-1", "Step 4 of 4: Generating new artifact")])
           _ eq_refl).
Defined.

(** The first character of a line is not a line feed. *)
Lemma readlines_from_cr (cur l rest : string) :
  l ≠ "" → has_char "010" l = false →
  readlines_from cur (CR +:+ l +:+ rest) = (cur +:+ LF) :: readlines_from "" (l +:+ rest).
Proof.
  intros Hne Hlf. destruct l as [|c l]; [done |].
  apply has_char_cons_false in Hlf as [Hc _].
  change (CR +:+ String c l +:+ rest) with (String "013" (String c (l +:+ rest))).
  change (String c l +:+ rest) with (String c (l +:+ rest)).
  cbn [readlines_from]. change (chr_is "013" "010") with false.
  change (chr_is "013" "013") with true. cbn iota. rewrite !Hc. reflexivity.
Qed.

(** Reading a text whose lines all have a line end. *)
Lemma readlines_with_ends (lines : list (string * string)) :
  Forall (λ lt, lt.1 ≠ "" ∧ has_char "010" lt.1 = false ∧ has_char "013" lt.1 = false
                ∧ line_end lt.2) lines →
  readlines (with_ends lines) = map (λ lt, lt.1 +:+ LF) lines.
Proof.
  unfold readlines. induction 1 as [|[l t] lines (Hne & Hlf & Hcr & Hend) Hrest IH]; [done |].
  cbn [with_ends map fst snd] in *. rewrite readlines_from_literal by done.
  change ("" +:+ l) with l. rewrite <- IH. clear IH.
  destruct Hend as [-> | [-> | ->]].
  - reflexivity.
  - destruct Hrest as [|[l' t'] lines' (Hne' & Hlf' & _) _]; [reflexivity |].
    cbn [with_ends fst snd] in *. by apply readlines_from_cr.
  - reflexivity.
Qed.

(** The loop of lines 92-94 on manifest lines that all end with a line feed. *)
Lemma for_line_rows (rows : list (string * string * string)) (acc : list (string * string)) :
  Forall (λ row, entry_readable row.1) rows →
  for_line (map (λ row, (manifest_row row).1 +:+ LF) rows) acc = Ret (acc ++ rows.*1).
Proof.
  intros H. revert acc. induction H as [|[[fp ft] t] rows He _ IH]; intros acc.
  - simpl. by rewrite app_nil_r.
  - cbn [map fmap list_fmap for_line manifest_row fst snd] in *.
    rewrite py_split_manifest_line by auto. cbn [unpack2 mbind outcome_bind].
    rewrite IH. by rewrite <- app_assoc.
Qed.

(** X18: the manifest is read the same whatever the line ends of the file:
    when every line of the file is the line of an entry with a path and a
    role that are not empty and have no whitespace, followed by a line feed,
    a carriage return or both, the loop of lines 92-94 returns the entries
    in the order of the lines. *)
Theorem manifest_line_ends_do_not_matter (rows : list (string * string * string)) :
  Forall (λ row, entry_readable row.1 ∧ line_end row.2) rows →
  for_line (readlines (with_ends (manifest_row <$> rows))) [] = Ret rows.*1.
Proof.
  intros H. rewrite readlines_with_ends.
  - rewrite <- list_fmap_compose. apply (for_line_rows rows []).
    eapply Forall_impl; [exact H |]. by intros row [? _].
  - apply Forall_fmap. eapply Forall_impl; [exact H |].
    intros [e t] [He Ht]. cbn [manifest_row fst snd].
    destruct (manifest_line_ok e He) as (? & ? & ?). done.
Qed.

Lemma manifest_line_ends_do_not_matter_witness :
  for_line (readlines (with_ends (manifest_row <$>
      [ (("/out/a.bam", "trimmed"), CR +:+ LF); (("/out/b.bam", "trimmed"), CR);
        (("/out/c.bam", "trimmed"), LF) ]))) []
  = Ret [("/out/a.bam", "trimmed"); ("/out/b.bam", "trimmed"); ("/out/c.bam", "trimmed")].
Proof.
  apply (manifest_line_ends_do_not_matter
           [ (("/out/a.bam", "trimmed"), CR +:+ LF); (("/out/b.bam", "trimmed"), CR);
             (("/out/c.bam", "trimmed"), LF) ]).
  repeat constructor; first [discriminate | by right; right | by right; left | by left].
Defined.

(** ** From the builder to the reader of the manifest *)

(** The manifest entry of a file is readable when the output directory and
    the base name of the file have no whitespace. *)
Lemma trimmed_entry_readable (o bam : string) :
  has_space o = false → has_space (basename bam) = false →
  entry_readable (trimmed_entry o bam).
Proof.
  intros Ho Hb. unfold entry_readable, whitespace_free, trimmed_entry. cbn [fst snd].
  split; [by destruct o |]. split; [done |]. split; [| done].
  by rewrite !has_space_append, Ho, Hb.
Qed.

(** X19: a property of two texts, with no file between them.  Take a
    manifest that the builder returns, for an output directory and input
    files whose base names have no whitespace, and the text that line 211
    makes of it, its lines joined by line feeds.  The lines of that text, as
    [readlines] gives them, go through the loop of lines 92-94 without an
    exception, and the loop returns the manifest of the builder. *)
Theorem built_manifest_text_is_read_back (bam_file primer nprocs out_dir : pyval)
    (commands : list string) (out_files : list (string * string))
    (bams : list string) (o : string) :
  _generate_commands bam_file primer nprocs out_dir = Ret (commands, out_files) →
  py_iter bam_file = Ret bams → py_str out_dir = Ret o →
  has_space o = false → Forall (λ bam, has_space (basename bam) = false) bams →
  for_line (readlines (str_join LF (manifest_lines out_files))) [] = Ret out_files.
Proof.
  intros (bams' & o' & Hiter & Ho & _ & ->)%generate_commands_inv Hiter' Ho' Hsp Hbams.
  rewrite Hiter in Hiter'. injection Hiter' as ->.
  rewrite Ho in Ho'. injection Ho' as ->.
  apply manifest_text_round_trip, Forall_fmap.
  eapply Forall_impl; [exact Hbams |]. intros bam Hb. by apply trimmed_entry_readable.
Qed.

Lemma built_manifest_text_is_read_back_witness :
  for_line (readlines (str_join LF (manifest_lines
      [("/out/sz1.bam", "trimmed"); ("/out/sc1.bam", "trimmed")]))) []
  = Ret [("/out/sz1.bam", "trimmed"); ("/out/sc1.bam", "trimmed")].
Proof.
  apply (built_manifest_text_is_read_back (PyList ["/in/sz1.bam"; "/in/sc1.bam"])
           (PyStr "primers.bed") (PyInt 2) (PyStr "/out")
           [ "ivar trim -x 2 -e -b primers.bed -i /in/sz1.bam -p /out/sz1.bam";
             "ivar trim -x 2 -e -b primers.bed -i /in/sc1.bam -p /out/sc1.bam" ]
           [("/out/sz1.bam", "trimmed"); ("/out/sc1.bam", "trimmed")]
           ["/in/sz1.bam"; "/in/sc1.bam"] "/out");
    first [reflexivity | repeat constructor].
Defined.

(** ** The reference directory *)

(** X20: a reference directory without an entry that ends with [.bed], such
    as one that holds only [.mmi] indexes, has an empty catalog, and every
    lookup of a reference name other than ['None'] raises [IndexError]. *)
Theorem no_bed_file_no_reference (w : world) (params : gmap string pyval) (r : string) :
  world_ok w → plain_reference_dir w →
  Forall (λ n, endswith n ".bed" = false)
    (scandir w (split_head (QC_REFERENCE_DB w +:+ "/*.bed"))) →
  params !! "reference" = Some (PyStr r) → r ≠ "None" →
  get_dbs_list w = Ret [] ∧ reference_database w params = Raise IndexError.
Proof.
  intros Hw Hdir Hnone Hr Hne.
  assert (catalog w = []) as Hcat.
  { unfold catalog. induction Hnone as [|n l Hn _ IH]; [done |].
    simpl. unfold matches_bed at 1. by rewrite Hn, andb_false_r. }
  split.
  - by rewrite (get_dbs_list_catalog w Hw Hdir), Hcat.
  - by rewrite (reference_database_filter w params r), Hcat.
Qed.

Lemma no_bed_file_no_reference_witness :
  let w := {| QC_REFERENCE_DB := "/databases/minimap2";
              scandir := λ _, ["artifacts.mmi"; "empty.mmi"];
              read_csv_columns := λ _, Ret [];
              os_write := os_write example_world |} in
  get_dbs_list w = Ret []
  ∧ reference_database w (<["reference" := PyStr "artifacts"]> example_params)
    = Raise IndexError.
Proof.
  apply (no_bed_file_no_reference
           {| QC_REFERENCE_DB := "/databases/minimap2";
              scandir := λ _, ["artifacts.mmi"; "empty.mmi"];
              read_csv_columns := λ _, Ret [];
              os_write := os_write example_world |}
           (<["reference" := PyStr "artifacts"]> example_params) "artifacts").
  - intros d n Hn. simpl in Hn.
    repeat (apply elem_of_cons in Hn as [-> | Hn]; [reflexivity |]).
    by apply elem_of_nil in Hn.
  - reflexivity.
  - repeat constructor.
  - reflexivity.
  - discriminate.
Defined.

Lemma upto_last_slash_clean (n : string) : has_char "/" n = false → upto_last_slash n = "".
Proof. destruct n as [|c n]; [done |]. cbn [upto_last_slash]. by intros ->. Qed.

Lemma upto_last_slash_dir (a n : string) :
  has_char "/" n = false → upto_last_slash (a +:+ String "/" n) = a +:+ "/".
Proof.
  intros Hn. induction a as [|c a IH].
  - change ("" +:+ String "/" n) with (String "/" n). cbn [upto_last_slash has_char].
    change (chr_is "/" "/") with true. cbn [orb]. by rewrite upto_last_slash_clean.
  - change (String c a +:+ String "/" n) with (String c (a +:+ String "/" n)).
    cbn [upto_last_slash]. rewrite IH.
    assert (has_char "/" (String c (a +:+ String "/" n)) = true) as ->; [| done].
    cbn [has_char]. rewrite has_char_append. cbn [has_char].
    change (chr_is "/" "/") with true. by rewrite !orb_true_r.
Qed.

Lemma rstrip_slash_append (x : string) : rstrip_slash (x +:+ "/") = rstrip_slash x.
Proof.
  induction x as [|c x IH]; [done |].
  change (String c x +:+ "/") with (String c (x +:+ "/")).
  cbn [rstrip_slash]. by rewrite IH.
Qed.

Lemma rstrip_slash_id (d : string) : endswith d "/" = false → rstrip_slash d = d.
Proof.
  induction d as [|c d IH]; [done |]. cbn [endswith rstrip_slash].
  intros [Hc Hd]%orb_false_elim. rewrite (IH Hd).
  destruct (String.eqb_spec d "") as [-> | _]; [| done].
  destruct (chr_is c "/") eqn:Hcs; [| done].
  apply chr_is_true in Hcs. subst c. discriminate Hc.
Qed.

(** The directory that [glob] lists for a reference directory named with or
    without one separator at its end. *)
Lemma split_head_reference_dir (d : string) :
  d ≠ "" → endswith d "/" = false →
  split_head (d +:+ "/*.bed") = d ∧ split_head ((d +:+ "/") +:+ "/*.bed") = d.
Proof.
  intros Hd He. unfold split_head.
  rewrite append_assoc.
  rewrite (upto_last_slash_dir d "*.bed" eq_refl).
  change ("/" +:+ "/*.bed") with ("/" +:+ String "/" "*.bed").
  rewrite <- (append_assoc d "/"), (upto_last_slash_dir (d +:+ "/") "*.bed" eq_refl).
  rewrite !rstrip_slash_append, (rstrip_slash_id d He).
  by destruct (String.eqb_spec d "").
Qed.

(** X21: when the name of the reference directory is not empty and does
    not end with a separator, one separator added at the end of
    [QC_REFERENCE_DB] changes nothing: the enumeration returns the same
    names and the lookup the same path or the same failure as for the
    directory named without it. *)
Theorem trailing_separator_is_harmless (w : world) (params : gmap string pyval) :
  QC_REFERENCE_DB w ≠ "" → endswith (QC_REFERENCE_DB w) "/" = false →
  let w' := {| QC_REFERENCE_DB := QC_REFERENCE_DB w +:+ "/";
               scandir := scandir w;
               read_csv_columns := read_csv_columns w;
               os_write := os_write w |} in
  get_dbs_list w' = get_dbs_list w
  ∧ reference_database w' params = reference_database w params.
Proof.
  intros Hd He w'.
  destruct (split_head_reference_dir _ Hd He) as [H1 H2].
  assert (get_dbs_list w' = get_dbs_list w) as Hdbs.
  { unfold get_dbs_list, glob_bed. cbn [QC_REFERENCE_DB scandir w']. by rewrite H1, H2. }
  split; [done |].
  unfold reference_database. rewrite Hdbs.
  destruct (dict_get params "reference") as [reference| |]; [| done..]. simpl.
  destruct (py_ne_str reference "None"); [| done].
  destruct (get_dbs_list w) as [dbs| |] eqn:Hlist; [| done..]. simpl.
  assert (Forall (λ db, startswith db "/" = false) dbs) as Hrel.
  { unfold get_dbs_list in Hlist. destruct (glob_bed w _) as [paths| |]; [| done..].
    injection Hlist as <-. apply Forall_fmap, Forall_forall. intros path _.
    apply startswith_clean, basename_clean. }
  assert (matching_dbs w' params dbs = matching_dbs w params dbs) as ->; [| done].
  clear Hlist Hdbs. induction Hrel as [|db dbs Hdb _ IH]; [done |].
  cbn [matching_dbs]. rewrite IH.
  destruct (dict_get params "reference") as [v| |]; [| done..]. simpl.
  destruct (py_in_str v db) as [hit| |]; [| done..]. simpl.
  destruct (matching_dbs w params dbs) as [tl| |]; [| done..]. simpl.
  destruct hit; [| done]. do 2 f_equal. cbn [QC_REFERENCE_DB w'].
  unfold join. rewrite Hdb, He.
  assert (endswith (QC_REFERENCE_DB w +:+ "/") "/" = true) as ->.
  { clear. induction (QC_REFERENCE_DB w) as [|c s IH]; [done |].
    change (String c s +:+ "/") with (String c (s +:+ "/")). cbn [endswith].
    by rewrite IH, orb_true_r. }
  rewrite orb_true_r.
  destruct (String.eqb_spec (QC_REFERENCE_DB w) "") as [Hnil | _]; [done |].
  simpl. by rewrite append_assoc.
Qed.

Lemma trailing_separator_is_harmless_witness :
  let w' := {| QC_REFERENCE_DB := "/databases/bed" +:+ "/";
               scandir := scandir example_world;
               read_csv_columns := read_csv_columns example_world;
               os_write := os_write example_world |} in
  get_dbs_list w' = get_dbs_list example_world
  ∧ reference_database w' example_params = reference_database example_world example_params.
Proof.
  apply (trailing_separator_is_harmless example_world example_params).
  - discriminate.
  - reflexivity.
Defined.

(** ** The text of the finishing script (lines 187-207) *)

(** The lines of a text written as lines joined by line feeds, with a last
    line feed. *)
Lemma text_lines_terminated (lines : list string) :
  lines ≠ [] → Forall (λ l, has_char "010" l = false) lines →
  text_lines (str_join LF lines +:+ LF) = lines.
Proof.
  unfold text_lines. intros Hne H. induction H as [|l lines Hl _ IH]; [done |].
  destruct lines as [|l' lines].
  - cbn [str_join]. rewrite lines_from_literal by done. reflexivity.
  - change (str_join LF (l :: l' :: lines)) with (l +:+ LF +:+ str_join LF (l' :: lines)).
    rewrite !append_assoc, lines_from_literal by done.
    change (LF +:+ str_join LF (l' :: lines) +:+ LF)
      with (String "010" (str_join LF (l' :: lines) +:+ LF)).
    cbn [lines_from]. change (chr_is "010" "010") with true. cbn iota.
    by rewrite IH.
Qed.

(** X22: the finishing script has seventeen lines although the list of
    lines 187-203 has sixteen items: the item without a comma after it holds
    a line feed, and the call of [finish_qp_fastp_minimap2] with the url, the
    job id and the output directory and the final [date] are lines of their
    own.  The job id, the output directory, the environment and the url have
    no line feed. *)
Theorem finish_script_lines (job_id out_dir environment url : string) :
  has_char "010" job_id = false → has_char "010" out_dir = false →
  has_char "010" environment = false → has_char "010" url = false →
  length (finish_qsub_lines job_id out_dir environment url) = 16%nat
  ∧ text_lines (str_join LF (finish_qsub_lines job_id out_dir environment url) +:+ LF)
    = [ "#!/bin/bash";
        "#PBS -M qiita.help@gmail.com";
        "#PBS -N finish-" +:+ job_id;
        "#PBS -l nodes=1:ppn=1";
        "#PBS -l walltime=10:00:00";
        "#PBS -l mem=10g";
        "#PBS -o " +:+ out_dir +:+ "/finish-" +:+ job_id +:+ ".log";
        "#PBS -e " +:+ out_dir +:+ "/finish-" +:+ job_id +:+ ".err";
        "#PBS -l epilogue=/home/qiita/qiita-epilogue.sh";
        "set -e";
        "cd " +:+ out_dir;
        environment;
        "date";
        "hostname";
        "echo $PBS_JOBID";
        "finish_qp_fastp_minimap2 " +:+ url +:+ " " +:+ job_id +:+ " " +:+ out_dir;
        "date" ].
Proof.
  intros Hj Ho He Hu. split; [reflexivity |].
  set (lines := [ _ ; _ ; _ ; _ ; _ ; _ ; _ ; _ ; _ ; _ ; _ ; _ ; _ ; _ ; _ ; _ ; _ ]).
  assert (str_join LF (finish_qsub_lines job_id out_dir environment url) = str_join LF lines)
    as ->.
  { unfold lines, finish_qsub_lines. cbn [str_join]. by rewrite !append_assoc. }
  apply text_lines_terminated; [done |].
  unfold lines. repeat apply Forall_cons_2; try apply Forall_nil_2;
    rewrite ?has_char_append, ?Hj, ?Ho, ?He, ?Hu; reflexivity.
Qed.

Lemma finish_script_lines_witness :
  length (finish_qsub_lines "job-1" "/out" "source activate qp-fastp-minimap2"
            "https://localhost:21174") = 16%nat
  ∧ text_lines (str_join LF (finish_qsub_lines "job-1" "/out"
                               "source activate qp-fastp-minimap2"
                               "https://localhost:21174") +:+ LF)
    = [ "#!/bin/bash";
        "#PBS -M qiita.help@gmail.com";
        "#PBS -N finish-" +:+ "job-1";
        "#PBS -l nodes=1:ppn=1";
        "#PBS -l walltime=10:00:00";
        "#PBS -l mem=10g";
        "#PBS -o " +:+ "/out" +:+ "/finish-" +:+ "job-1" +:+ ".log";
        "#PBS -e " +:+ "/out" +:+ "/finish-" +:+ "job-1" +:+ ".err";
        "#PBS -l epilogue=/home/qiita/qiita-epilogue.sh";
        "set -e";
        "cd " +:+ "/out";
        "source activate qp-fastp-minimap2";
        "date";
        "hostname";
        "echo $PBS_JOBID";
        "finish_qp_fastp_minimap2 " +:+ "https://localhost:21174" +:+ " " +:+ "job-1"
          +:+ " " +:+ "/out";
        "date" ].
Proof.
  apply (finish_script_lines "job-1" "/out" "source activate qp-fastp-minimap2"
           "https://localhost:21174"); reflexivity.
Defined.

(** ** The text of the array-job script (lines 159-184) *)

(** X23: in the file of the array-job script every item of the list of
    lines 159-180 is a line of its own, twenty-two in all, so that the
    directive of the array is the ninth line of the file and the task body
    its last lines.  The job id, the output directory, the thread count,
    the environment and the name of the details file have no line feed. *)
Theorem main_script_lines (job_id out_dir PPN environment details_name : string)
    (n_jobs : nat) :
  has_char "010" job_id = false → has_char "010" out_dir = false →
  has_char "010" PPN = false → has_char "010" environment = false →
  has_char "010" details_name = false →
  let script :=
    str_join LF (main_qsub_lines job_id out_dir PPN environment details_name n_jobs) +:+ LF in
  text_lines script = main_qsub_lines job_id out_dir PPN environment details_name n_jobs
  ∧ length (text_lines script) = 22%nat
  ∧ text_lines script !! 8%nat = Some ("#PBS -t 1-" +:+ nat_str n_jobs +:+ "%8").
Proof.
  intros Hj Ho Hp He Hd script.
  assert (text_lines script
          = main_qsub_lines job_id out_dir PPN environment details_name n_jobs) as ->.
  { apply text_lines_terminated; [done |].
    assert (has_char "010" (nat_str n_jobs) = false) as Hn.
    { unfold nat_str, NilZero.string_of_uint.
      assert (∀ d, has_char "010" (NilEmpty.string_of_uint d) = false) as Hd'
        by (induction d; simpl; auto).
      destruct (Nat.to_uint n_jobs); try apply Hd'; reflexivity. }
    unfold main_qsub_lines. repeat apply Forall_cons_2; try apply Forall_nil_2;
      rewrite ?has_char_append, ?Hj, ?Ho, ?Hp, ?He, ?Hd, ?Hn; reflexivity. }
  split; [done |]. split; reflexivity.
Qed.

Lemma main_script_lines_witness :
  let script :=
    str_join LF (main_qsub_lines "job-1" "/out" "2" "source activate qp-fastp-minimap2"
                   "/out/fastp_minimap2.array-details" 2) +:+ LF in
  text_lines script
  = main_qsub_lines "job-1" "/out" "2" "source activate qp-fastp-minimap2"
      "/out/fastp_minimap2.array-details" 2
  ∧ length (text_lines script) = 22%nat
  ∧ text_lines script !! 8%nat = Some ("#PBS -t 1-" +:+ nat_str 2 +:+ "%8").
Proof.
  apply (main_script_lines "job-1" "/out" "2" "source activate qp-fastp-minimap2"
           "/out/fastp_minimap2.array-details" 2); reflexivity.
Defined.
